(** * ditto-go-sdk: the query builders and the service client, embedded in Rocq

    The development follows package [ditto] of the repository: Go strings are
    byte strings ([string]), Go maps are finite maps ([gmap]) together with
    the order in which a [range] statement happens to visit them, the
    [strings.Builder] of [BuildSelect] is threaded explicitly, and everything
    that leaves the process (the HTTP client, the [DockerRunner] interface,
    [os/exec]) is a record of state transformers on a world type. *)

From Stdlib Require Import ZArith String Ascii List Bool Lia DecimalString.
From stdpp Require Import base option list gmap strings fin_maps.

Local Open Scope string_scope.
Local Open Scope Z_scope.

#[local] Arguments String.append !_ _ / : simpl nomatch.

(** ** Package [strings] and [fmt] of the Go library, as far as the package uses them *)

Module strings.

(** The library functions with a Unicode-aware slow path take that path as
    soon as the argument holds a byte [>= 0x80]. The slow paths consult the
    Unicode tables of the Go distribution; they are kept abstract here. *)
Record Unicode : Type := {
  MapToUpper : string -> string;           (* strings.Map(unicode.ToUpper, s) *)
  MapToLower : string -> string;           (* strings.Map(unicode.ToLower, s) *)
  TrimFuncIsSpace : string -> string;      (* strings.TrimFunc(s, unicode.IsSpace) *)
  TrimRightFuncIsSpace : string -> string  (* strings.TrimRightFunc(s, unicode.IsSpace) *)
}.

Definition byte_lt (c : ascii) (n : N) : bool := (N_of_ascii c <? n)%N.
Definition byte_in (lo hi c : ascii) : bool :=
  ((N_of_ascii lo <=? N_of_ascii c) && (N_of_ascii c <=? N_of_ascii hi))%N.

(** [c < utf8.RuneSelf] *)
Definition isASCIIbyte (c : ascii) : bool := byte_lt c 128.

Fixpoint isASCII (s : string) : bool :=
  match s with
  | EmptyString => true
  | String c s' => isASCIIbyte c && isASCII s'
  end.

Fixpoint map_bytes (f : ascii -> ascii) (s : string) : string :=
  match s with
  | EmptyString => EmptyString
  | String c s' => String (f c) (map_bytes f s')
  end.

Definition upper_byte (c : ascii) : ascii :=
  if byte_in "a" "z" c then ascii_of_N (N_of_ascii c - 32) else c.
Definition lower_byte (c : ascii) : ascii :=
  if byte_in "A" "Z" c then ascii_of_N (N_of_ascii c + 32) else c.

Section WithUnicode.
Variable U : Unicode.

Definition ToUpper (s : string) : string :=
  if isASCII s then map_bytes upper_byte s else MapToUpper U s.

Definition ToLower (s : string) : string :=
  if isASCII s then map_bytes lower_byte s else MapToLower U s.

(** [asciiSpace]: tab, newline, vertical tab, form feed, carriage return, space *)
Definition asciiSpace (c : ascii) : bool :=
  byte_in "009" "013" c || Ascii.eqb c " ".

(** The second loop of [TrimSpace], walking [s[start:stop]] from its end:
    [r] is that slice reversed. *)
Fixpoint trim_stop (r : list ascii) : string :=
  match r with
  | [] => EmptyString
  | c :: r' =>
      if negb (isASCIIbyte c)
      then TrimRightFuncIsSpace U (string_of_list_ascii (List.rev r))
      else if asciiSpace c then trim_stop r'
      else string_of_list_ascii (List.rev r)
  end.

Fixpoint TrimSpace (s : string) : string :=
  match s with
  | EmptyString => EmptyString
  | String c s' =>
      if negb (isASCIIbyte c) then TrimFuncIsSpace U s
      else if asciiSpace c then TrimSpace s'
      else trim_stop (List.rev (list_ascii_of_string s))
  end.
End WithUnicode.

Fixpoint HasPrefix (s prefix : string) : bool :=
  match prefix, s with
  | EmptyString, _ => true
  | String p prefix', String c s' => Ascii.eqb c p && HasPrefix s' prefix'
  | String _ _, EmptyString => false
  end.

(** [ReplaceAll s old new] for a non-empty [old], which is how the package
    calls it: the matches are found left to right and do not overlap.
    [skip] counts the bytes of a match still to be dropped. *)
Fixpoint replace_from (old new : string) (skip : nat) (s : string) : string :=
  match s with
  | EmptyString => EmptyString
  | String c s' =>
      match skip with
      | S k => replace_from old new k s'
      | O =>
          if HasPrefix s old
          then new ++ replace_from old new (Nat.pred (String.length old)) s'
          else String c (replace_from old new O s')
      end
  end.

Definition ReplaceAll (s old new : string) : string :=
  match old with
  | EmptyString => s
  | _ => replace_from old new O s
  end.

(** [TrimRight s cutset] for a cutset of ASCII bytes. *)
Definition in_cutset (cutset : string) (c : ascii) : bool :=
  existsb (Ascii.eqb c) (list_ascii_of_string cutset).

Fixpoint trim_right_rev (cutset : string) (r : list ascii) : string :=
  match r with
  | [] => EmptyString
  | c :: r' =>
      if in_cutset cutset c then trim_right_rev cutset r'
      else string_of_list_ascii (List.rev r)
  end.

Definition TrimRight (s cutset : string) : string :=
  trim_right_rev cutset (List.rev (list_ascii_of_string s)).

Fixpoint Join (elems : list string) (sep : string) : string :=
  match elems with
  | [] => ""
  | [e] => e
  | e :: rest => e ++ sep ++ Join rest sep
  end.

(** [strings.Builder]: the bytes written so far. *)
Definition Builder : Type := string.
Definition new_Builder : Builder := "".
Definition WriteString (b : Builder) (s : string) : Builder := b ++ s.
Definition String_ (b : Builder) : string := b.

End strings.

(** [fmt.Sprintf("%d", n)] *)
Definition itoa (n : Z) : string := NilZero.string_of_int (Z.to_int n).

(** The byte [0x22] and the byte [0x5c]. *)
Definition dquote : string := String "034" EmptyString.
Definition backslash : string := String "092" EmptyString.

(** ** Values of the language *)

(** [error]: what [errors.New] and [fmt.Errorf] build. [wrapError] is the
    result of a [%w] verb: it carries the formatted message and the operand. *)
Inductive error : Type :=
| errorString (s : string)
| wrapError (msg : string) (err : error).

Definition Error (e : error) : string :=
  match e with
  | errorString s => s
  | wrapError msg _ => msg
  end.

Module errors.
Definition New (text : string) : error := errorString text.
End errors.

(** A function returning [(T, error)] returns either the value or the error. *)
Inductive result (T : Type) : Type :=
| Ok (v : T)
| Err (e : error).
Arguments Ok {T} v.
Arguments Err {T} e.

Definition is_Err {T} (r : result T) : Prop :=
  match r with Ok _ => False | Err _ => True end.

(** [any], restricted to the dynamic values a JSON document is made of.
    A map is [None] when it is the nil map. *)
#[warnings="-register-all"]
Inductive any : Type :=
| Null
| Bool (b : bool)
| Number (n : Z)
| Str (s : string)
| Array (l : list any)
| Object (m : option (gmap string any)).

(** [map[string]V]; the nil map is [None]. *)
Definition gomap (V : Type) : Type := option (gmap string V).

Definition len {V} (m : gomap V) : Z :=
  match m with
  | None => 0
  | Some g => Z.of_nat (size g)
  end.

(** The key/value pairs of a map. A [range] statement visits them in an
    order the runtime chooses: some list [ord] with [range_of m ord]. *)
Definition entries {V} (m : gomap V) : list (string * V) :=
  match m with
  | None => []
  | Some g => map_to_list g
  end.

Definition range_of {V} (m : gomap V) (ord : list (string * V)) : Prop :=
  ord ≡ₚ entries m.

(** ** Query builders *)

Definition escapeIdent (s : string) : string :=
  let s := strings.ReplaceAll s "`" "" in
  let s := strings.ReplaceAll s " " "_" in
  s.

Definition escapeString (s : string) : string :=
  strings.ReplaceAll s dquote (backslash ++ dquote).

Section Builders.
Variable U : strings.Unicode.

(** One round of the loop over the filters: the builder and the counter [i]. *)
Definition BuildSelect_filter (st : strings.Builder * Z) (kv : string * string)
  : strings.Builder * Z :=
  let '(b, i) := st in
  let '(k, v) := kv in
  let b := if 0 <? i then strings.WriteString b " AND " else b in
  let b := strings.WriteString b (escapeIdent k) in
  let b := strings.WriteString b (" == " ++ dquote) in
  let b := strings.WriteString b (escapeString v) in
  let b := strings.WriteString b dquote in
  (b, i + 1).

(** [ord] is the order in which [range filters] yields the entries. *)
Definition BuildSelect (collection : string) (filters : gomap string)
    (ord : list (string * string)) (limit : Z) (sortBy sortOrder : string) : string :=
  let b := strings.new_Builder in
  let b := strings.WriteString b "SELECT * FROM " in
  let b := strings.WriteString b (escapeIdent collection) in
  let b :=
    if 0 <? len filters then
      let b := strings.WriteString b " WHERE " in
      fst (fold_left BuildSelect_filter ord (b, 0))
    else b in
  let b :=
    if negb (String.eqb sortBy "") then
      let b := strings.WriteString b " ORDER BY " in
      let b := strings.WriteString b (escapeIdent sortBy) in
      if String.eqb (strings.ToUpper U sortOrder) "DESC" then
        strings.WriteString b " DESC"
      else if String.eqb (strings.ToUpper U sortOrder) "ASC" then
        strings.WriteString b " ASC"
      else b
    else b in
  let b :=
    if 0 <? limit then
      let b := strings.WriteString b " LIMIT " in
      strings.WriteString b (itoa limit)
    else b in
  strings.String_ b.
End Builders.

Definition BuildInsert (collection : string) (doc : gomap any)
  : result (string * gomap any) :=
  if String.eqb collection "" then Err (errors.New "collection required")
  else Ok ("INSERT INTO " ++ escapeIdent collection ++ " DOCUMENTS (:doc)",
           Some {[ "doc" := Object doc ]}).

(** One round of the loop over the patch: the clauses and the arguments. *)
Definition BuildUpdate_field (st : list string * gmap string any) (kv : string * any)
  : list string * gmap string any :=
  let '(parts, args) := st in
  let '(k, v) := kv in
  let pname := "p_" ++ k in
  (app parts [escapeIdent k ++ " = :" ++ pname], <[ pname := v ]> args).

(** [ord] is the order in which [range patch] yields the entries. *)
Definition BuildUpdate (collection id : string) (patch : gomap any)
    (ord : list (string * any)) : result (string * gomap any) :=
  if String.eqb collection "" || String.eqb id "" then
    Err (errors.New "collection and id required")
  else if len patch =? 0 then
    Err (errors.New "patch is empty")
  else
    let '(parts, args) :=
      fold_left BuildUpdate_field ord ([], {[ "id" := Str id ]}) in
    let set := strings.Join parts ", " in
    Ok ("UPDATE " ++ escapeIdent collection ++ " SET " ++ set ++ " WHERE _id == :id",
        Some args).

(** ** The world outside the process *)

(** A computation that acts on the world [W]: the network, the container
    daemon, the processes it starts. *)
Definition M (W A : Type) : Type := W -> A * W.

Definition ret {W A} (a : A) : M W A := fun w => (a, w).
Definition bind {W A B} (m : M W A) (k : A -> M W B) : M W B :=
  fun w => let '(a, w') := m w in k a w'.

Notation "'let*' x ':=' m 'in' k" := (bind m (fun x => k))
  (at level 10, x pattern, m at level 100, k at level 200).

(** [DockerOptions] *)
Record DockerOptions : Type := {
  ContainerName : string;
  ImageName : string;
  ImageTarPath : string;
  ConfigPath : string;
  DataPath : string;
  ComposeFile : string;
  ComposeService : string
}.

(** The [DockerRunner] interface. [ContainerStatus] returns a pair, as any
    implementation may. *)
Record DockerRunner (W Ctx : Type) : Type := {
  EnsureImageLoaded : Ctx -> string -> string -> M W (option error);
  ContainerStatus : Ctx -> string -> M W (string * option error);
  RunContainer : Ctx -> DockerOptions -> M W (option error);
  StartContainer : Ctx -> string -> M W (option error);
  StopContainer : Ctx -> string -> M W (option error)
}.
Arguments EnsureImageLoaded {W Ctx}.
Arguments ContainerStatus {W Ctx}.
Arguments RunContainer {W Ctx}.
Arguments StartContainer {W Ctx}.
Arguments StopContainer {W Ctx}.

Module http.
(** A request: [Body] is the JSON document whose encoding
    [json.Marshal] hands to [bytes.NewReader]. *)
Record Request : Type := {
  Method : string;
  URL : string;
  Header : gmap string string;
  Body : any
}.

(** A response: the status code and the bytes [io.ReadAll] reads from its body. *)
Record Response : Type := {
  StatusCode : Z;
  BodyBytes : string
}.

(** [http.Client]: [Do] sends the request. *)
Record Client (W : Type) : Type := {
  Do : Request -> M W (result Response)
}.
Arguments Do {W}.

Definition MethodPost : string := "POST".

Definition Header_Set (req : Request) (key value : string) : Request :=
  {| Method := Method req; URL := URL req;
     Header := <[ key := value ]> (Header req); Body := Body req |}.
End http.

(** What the package takes from the Go library besides [strings]:
    when [http.NewRequestWithContext] refuses a context or a URL, and what
    the JSON decoder makes of a response body. *)
Record Lib (Ctx : Type) : Type := {
  unicode : strings.Unicode;
  NewRequest_error : Ctx -> string -> option error;
  json_Decode : string -> result any
}.
Arguments unicode {Ctx}.
Arguments NewRequest_error {Ctx}.
Arguments json_Decode {Ctx}.

(** [os/exec]: running a command to its end, [cmd.CombinedOutput()]. *)
Record os_exec (W Ctx : Type) : Type := {
  CombinedOutput : Ctx -> string -> list string -> M W (string * option error)
}.
Arguments CombinedOutput {W Ctx}.

(** ** The service *)

Record service (W Ctx : Type) : Type := {
  BaseURL : string;
  AppID : string;
  HTTP : http.Client W;
  docker : option (DockerRunner W Ctx);
  dockerOpts : DockerOptions;
  startedDocker : bool
}.
Arguments BaseURL {W Ctx}.
Arguments AppID {W Ctx}.
Arguments HTTP {W Ctx}.
Arguments docker {W Ctx}.
Arguments dockerOpts {W Ctx}.
Arguments startedDocker {W Ctx}.

Definition set_startedDocker {W Ctx} (b : bool) (s : service W Ctx) : service W Ctx :=
  {| BaseURL := BaseURL s; AppID := AppID s; HTTP := HTTP s; docker := docker s;
     dockerOpts := dockerOpts s; startedDocker := b |}.

(** [fmt.Errorf(prefix + "%w", err)] *)
Definition Errorf_w (prefix : string) (err : error) : error :=
  wrapError (prefix ++ Error err) err.

Section Service.
Context {W Ctx : Type}.
Variable L : Lib Ctx.

Definition WithDocker (s : service W Ctx) (d : option (DockerRunner W Ctx))
    (opts : DockerOptions) : service W Ctx :=
  {| BaseURL := BaseURL s; AppID := AppID s; HTTP := HTTP s; docker := d;
     dockerOpts := opts; startedDocker := startedDocker s |}.

(** [InitDB] returns its error and the receiver as it leaves it. *)
Definition InitDB (s : service W Ctx) (ctx : Ctx) : M W (option error * service W Ctx) :=
  match docker s with
  | None => ret (None, s)
  | Some d =>
      let* err := EnsureImageLoaded d ctx (ImageName (dockerOpts s))
                    (ImageTarPath (dockerOpts s)) in
      match err with
      | Some err => ret (Some (Errorf_w "ensure image: " err), s)
      | None =>
          let* (status, err) := ContainerStatus d ctx (ContainerName (dockerOpts s)) in
          match err with
          | Some err => ret (Some (Errorf_w "container status: " err), s)
          | None =>
              if String.eqb status "running" then ret (None, s)
              else if String.eqb status "exited" then
                let* err := RunContainer d ctx (dockerOpts s) in
                match err with
                | Some err => ret (Some (Errorf_w "start container: " err), s)
                | None => ret (None, s)
                end
              else
                let* err := RunContainer d ctx (dockerOpts s) in
                match err with
                | Some err => ret (Some (Errorf_w "run container: " err), s)
                | None => ret (None, set_startedDocker true s)
                end
          end
      end
  end.

Definition Close (s : service W Ctx) (ctx : Ctx) : M W (option error) :=
  match docker s with
  | Some d =>
      let* _ := StopContainer d ctx (ContainerName (dockerOpts s)) in
      ret None
  | None => ret None
  end.

(** [http.NewRequestWithContext(ctx, method, url, bytes.NewReader(b))] *)
Definition NewRequestWithContext (ctx : Ctx) (method url : string) (b : any)
  : result http.Request :=
  match NewRequest_error L ctx url with
  | Some err => Err err
  | None => Ok {| http.Method := method; http.URL := url;
                  http.Header := ∅; http.Body := b |}
  end.

Definition execute_url (s : service W Ctx) : string :=
  strings.TrimRight (BaseURL s) "/" ++ "/" ++ AppID s ++ "/execute".

(** The part of [exec] and [execWithArgs] after the request has been
    answered, written once in each of them in the source. *)
Definition http_error (resp : http.Response) (query : string) : error :=
  let body := http.BodyBytes resp in
  let snippet := body in
  let snippet :=
    if (256 <? String.length snippet)%nat
    then String.substring 0 256 snippet ++ "..." else snippet in
  let q := query in
  let q :=
    if (200 <? String.length q)%nat
    then String.substring 0 200 q ++ "..." else q in
  errorString ("ditto http " ++ itoa (http.StatusCode resp) ++ ": "
               ++ strings.TrimSpace (unicode L) snippet ++ " | query: " ++ q).

Definition exec (s : service W Ctx) (ctx : Ctx) (query : string) : M W (result any) :=
  let url := execute_url s in
  let payload : gmap string string := {[ "query" := query ]} in
  let b := Object (Some (Str <$> payload)) in
  match NewRequestWithContext ctx http.MethodPost url b with
  | Err err => ret (Err err)
  | Ok req =>
      let req := http.Header_Set req "Content-Type" "application/json" in
      let* r := http.Do (HTTP s) req in
      match r with
      | Err err => ret (Err err)
      | Ok resp =>
          if negb (Z.quot (http.StatusCode resp) 100 =? 2) then
            ret (Err (http_error resp query))
          else
            match json_Decode L (http.BodyBytes resp) with
            | Err err => ret (Err err)
            | Ok out => ret (Ok out)
            end
      end
  end.

Definition execWithArgs (s : service W Ctx) (ctx : Ctx) (query : string)
    (args : gomap any) : M W (result any) :=
  let url := execute_url s in
  let payload : gmap string any := {[ "query" := Str query ]} in
  let payload :=
    match args with
    | Some _ => <[ "query_args" := Object args ]> payload
    | None => payload
    end in
  let b := Object (Some payload) in
  match NewRequestWithContext ctx http.MethodPost url b with
  | Err err => ret (Err err)
  | Ok req =>
      let req := http.Header_Set req "Content-Type" "application/json" in
      let* r := http.Do (HTTP s) req in
      match r with
      | Err err => ret (Err err)
      | Ok resp =>
          if negb (Z.quot (http.StatusCode resp) 100 =? 2) then
            ret (Err (http_error resp query))
          else
            match json_Decode L (http.BodyBytes resp) with
            | Err err => ret (Err err)
            | Ok out => ret (Ok out)
            end
      end
  end.

Definition CreateDocument (s : service W Ctx) (ctx : Ctx) (collection : string)
    (doc : gomap any) : M W (result any) :=
  match BuildInsert collection doc with
  | Err err => ret (Err err)
  | Ok (q, args) => execWithArgs s ctx q args
  end.

Definition GetRecord (s : service W Ctx) (ctx : Ctx) (collection id : string)
  : M W (result any) :=
  let q := "SELECT * FROM " ++ escapeIdent collection ++ " WHERE _id == :id LIMIT 1" in
  execWithArgs s ctx q (Some {[ "id" := Str id ]}).

Definition GetRecords (s : service W Ctx) (ctx : Ctx) (collection : string)
    (limit : Z) (sortBy sortOrder : string) : M W (result any) :=
  let q := BuildSelect (unicode L) collection None [] limit sortBy sortOrder in
  execWithArgs s ctx q None.

Definition UpdateRecord (s : service W Ctx) (ctx : Ctx) (collection id : string)
    (patch : gomap any) (ord : list (string * any)) : M W (result any) :=
  match BuildUpdate collection id patch ord with
  | Err err => ret (Err err)
  | Ok (q, args) => execWithArgs s ctx q args
  end.

Definition DeleteRecord (s : service W Ctx) (ctx : Ctx) (collection id : string)
  : M W (result any) :=
  let q := "DELETE FROM " ++ escapeIdent collection ++ " WHERE _id = :id" in
  execWithArgs s ctx q (Some {[ "id" := Str id ]}).

Definition DeleteAllRecords (s : service W Ctx) (ctx : Ctx) (collection : string)
  : M W (result any) :=
  if String.eqb collection "" then ret (Err (errors.New "collection required"))
  else
    let q := "DELETE FROM " ++ escapeIdent collection ++ " WHERE _id LIKE :pattern" in
    execWithArgs s ctx q (Some {[ "pattern" := Str "%" ]}).

Definition LatestRecord (s : service W Ctx) (ctx : Ctx) (collection sortBy : string)
  : M W (result any) :=
  let q := BuildSelect (unicode L) collection None [] 1 sortBy "DESC" in
  execWithArgs s ctx q None.

Definition Search (s : service W Ctx) (ctx : Ctx) (collection : string)
    (filters : gomap string) (ord : list (string * string)) (limit : Z)
    (sortBy sortOrder : string) : M W (result any) :=
  let q := BuildSelect (unicode L) collection filters ord limit sortBy sortOrder in
  execWithArgs s ctx q None.
End Service.

(** ** The two runners of the package *)

Section Runners.
Context {W Ctx : Type}.
Variable U : strings.Unicode.
Variable X : os_exec W Ctx.

Definition runCmd (ctx : Ctx) (name : string) (args : list string) : M W (option error) :=
  let* (out, err) := CombinedOutput X ctx name args in
  match err with
  | Some err =>
      ret (Some (errorString (name ++ " " ++ strings.Join args " " ++ ": "
                              ++ Error err ++ ": " ++ out)))
  | None => ret None
  end.

Definition docker_ps (name : string) : list string :=
  ["-lc"; "docker ps -a --filter name=^/" ++ name ++ "$ --format '{{.Status}}'"].

Definition dockerRunnerDefault_EnsureImageLoaded (ctx : Ctx) (imageName tarPath : string)
  : M W (option error) :=
  let* err := runCmd ctx "docker" ["image"; "inspect"; imageName] in
  match err with
  | None => ret None
  | Some _ =>
      let* err := runCmd ctx "docker" ["load"; "-i"; tarPath] in
      match err with
      | Some err => ret (Some (Errorf_w "docker load: " err))
      | None => ret None
      end
  end.

Definition dockerRunnerDefault_ContainerStatus (ctx : Ctx) (name : string)
  : M W (string * option error) :=
  let* (out, err) := CombinedOutput X ctx "bash" (docker_ps name) in
  match err with
  | Some err => ret ("", Some (Errorf_w "docker ps: " err))
  | None =>
      let s := strings.ToLower U (strings.TrimSpace U out) in
      if String.eqb s "" then ret ("not-found", None)
      else if strings.HasPrefix s "up " then ret ("running", None)
      else if strings.HasPrefix s "exited " then ret ("exited", None)
      else ret (s, None)
  end.

Definition dockerRunnerDefault_RunContainer (ctx : Ctx) (opts : DockerOptions)
  : M W (option error) :=
  let args :=
    ["run"; "-d"; "--name"; ContainerName opts;
     "-p"; "127.0.0.1:8090:8090";
     "-v"; ConfigPath opts ++ ":/config.yaml";
     "-v"; DataPath opts ++ ":/data";
     ImageName opts; "run"; "-c"; "/config.yaml"] in
  let* err := runCmd ctx "docker" args in
  match err with
  | Some err => ret (Some (Errorf_w "docker run: " err))
  | None => ret None
  end.

Definition dockerRunnerDefault_StartContainer (ctx : Ctx) (name : string)
  : M W (option error) :=
  runCmd ctx "docker" ["start"; name].

Definition dockerRunnerDefault_StopContainer (ctx : Ctx) (name : string)
  : M W (option error) :=
  runCmd ctx "docker" ["stop"; name].

Definition NewDockerRunnerDefault : DockerRunner W Ctx :=
  {| EnsureImageLoaded := dockerRunnerDefault_EnsureImageLoaded;
     ContainerStatus := dockerRunnerDefault_ContainerStatus;
     RunContainer := dockerRunnerDefault_RunContainer;
     StartContainer := dockerRunnerDefault_StartContainer;
     StopContainer := dockerRunnerDefault_StopContainer |}.

Definition composeRunnerDefault_EnsureImageLoaded (ctx : Ctx) (imageName tarPath : string)
  : M W (option error) :=
  let* err := runCmd ctx "docker" ["image"; "inspect"; imageName] in
  match err with
  | None => ret None
  | Some _ =>
      if negb (String.eqb tarPath "") then
        let* err := runCmd ctx "docker" ["load"; "-i"; tarPath] in
        match err with
        | Some err => ret (Some (Errorf_w "docker load: " err))
        | None => ret None
        end
      else ret None
  end.

Definition composeRunnerDefault_ContainerStatus (ctx : Ctx) (name : string)
  : M W (string * option error) :=
  let* (out, err) := CombinedOutput X ctx "bash" (docker_ps name) in
  match err with
  | Some err => ret ("", Some (Errorf_w "docker ps: " err))
  | None =>
      let s := strings.ToLower U (strings.TrimSpace U out) in
      if String.eqb s "" then ret ("not-found", None)
      else if strings.HasPrefix s "up " then ret ("running", None)
      else if strings.HasPrefix s "exited " then ret ("exited", None)
      else ret (s, None)
  end.

Definition composeRunnerDefault_RunContainer (ctx : Ctx) (opts : DockerOptions)
  : M W (option error) :=
  let svc := ComposeService opts in
  let svc := if String.eqb svc "" then "ditto-edge-server" else svc in
  let args := ["compose"] in
  let args :=
    if negb (String.eqb (ComposeFile opts) "")
    then app args ["-f"; ComposeFile opts] else args in
  let args := app args ["up"; "-d"; svc] in
  let* err := runCmd ctx "docker" args in
  match err with
  | Some err => ret (Some (Errorf_w "docker compose up: " err))
  | None => ret None
  end.

Definition composeRunnerDefault_StartContainer (ctx : Ctx) (name : string)
  : M W (option error) :=
  let args := ["compose"; "start"; name] in
  runCmd ctx "docker" args.

Definition composeRunnerDefault_StopContainer (ctx : Ctx) (name : string)
  : M W (option error) :=
  let* _ := runCmd ctx "docker" ["compose"; "stop"; name] in
  let* _ := runCmd ctx "docker" ["stop"; name] in
  let* _ := runCmd ctx "docker" ["rm"; "-f"; name] in
  ret None.

Definition NewComposeRunnerDefault : DockerRunner W Ctx :=
  {| EnsureImageLoaded := composeRunnerDefault_EnsureImageLoaded;
     ContainerStatus := composeRunnerDefault_ContainerStatus;
     RunContainer := composeRunnerDefault_RunContainer;
     StartContainer := composeRunnerDefault_StartContainer;
     StopContainer := composeRunnerDefault_StopContainer |}.
End Runners.

(** ** Observing what a service asks of its collaborators *)

(** A call that crosses the [DockerRunner] interface or reaches the HTTP client. *)
Inductive Call : Type :=
| CallEnsureImageLoaded (imageName tarPath : string)
| CallContainerStatus (name : string)
| CallRunContainer (opts : DockerOptions)
| CallStartContainer (name : string)
| CallStopContainer (name : string)
| CallDo (req : http.Request).

(** The same computation, on a world that also keeps the list of calls. *)
Definition recording {W A} (c : Call) (m : M W A) : M (W * list Call) A :=
  fun st => let '(a, w') := m (fst st) in (a, (w', app (snd st) [c])).

Definition recording_runner {W Ctx} (d : DockerRunner W Ctx)
  : DockerRunner (W * list Call) Ctx :=
  {| EnsureImageLoaded ctx imageName tarPath :=
       recording (CallEnsureImageLoaded imageName tarPath)
                 (EnsureImageLoaded d ctx imageName tarPath);
     ContainerStatus ctx name :=
       recording (CallContainerStatus name) (ContainerStatus d ctx name);
     RunContainer ctx opts :=
       recording (CallRunContainer opts) (RunContainer d ctx opts);
     StartContainer ctx name :=
       recording (CallStartContainer name) (StartContainer d ctx name);
     StopContainer ctx name :=
       recording (CallStopContainer name) (StopContainer d ctx name) |}.

Definition recording_client {W} (c : http.Client W) : http.Client (W * list Call) :=
  {| http.Do req := recording (CallDo req) (http.Do c req) |}.

Definition recording_service {W Ctx} (s : service W Ctx) : service (W * list Call) Ctx :=
  {| BaseURL := BaseURL s; AppID := AppID s;
     HTTP := recording_client (HTTP s);
     docker := recording_runner <$> docker s;
     dockerOpts := dockerOpts s;
     startedDocker := startedDocker s |}.

(** * Vocabulary of the specification *)

(** ** Statements, clause by clause *)

(** [Join] is the first element followed by each other one behind the separator. *)
Fixpoint sep_concat (sep : string) (l : list string) : string :=
  match l with
  | [] => ""
  | e :: rest => sep ++ e ++ sep_concat sep rest
  end.

Section Clauses.
Variable U : strings.Unicode.

(** The statement as the specification spells it, clause by clause. *)
Definition filter_term (kv : string * string) : string :=
  escapeIdent (fst kv) ++ " == " ++ dquote ++ escapeString (snd kv) ++ dquote.

Definition where_clause (ord : list (string * string)) : string :=
  match ord with
  | [] => ""
  | _ => " WHERE " ++ strings.Join (List.map filter_term ord) " AND "
  end.

(** Two words are the same up to case when their upper-case forms agree. *)
Definition same_word (s w : string) : bool :=
  String.eqb (strings.ToUpper U s) (strings.ToUpper U w).

Definition direction (sortOrder : string) : string :=
  if same_word sortOrder "DESC" then " DESC"
  else if same_word sortOrder "ASC" then " ASC"
  else "".

Definition order_clause (sortBy sortOrder : string) : string :=
  match sortBy with
  | "" => ""
  | _ => " ORDER BY " ++ escapeIdent sortBy ++ direction sortOrder
  end.

Definition limit_clause (limit : Z) : string :=
  if 0 <? limit then " LIMIT " ++ itoa limit else "".

End Clauses.

Definition lookup_map {V} (m : gomap V) (k : string) : option V :=
  match m with
  | None => None
  | Some g => g !! k
  end.

(** The clause a patch field contributes and the name its value is bound to. *)
Definition param_name (k : string) : string := "p_" ++ k.
Definition set_clause (kv : string * any) : string :=
  escapeIdent (fst kv) ++ " = :" ++ param_name (fst kv).

(** ** Requests, answers and error messages *)

(** [strings.Contains] on byte strings. *)
Fixpoint Contains (s substr : string) : bool :=
  strings.HasPrefix s substr
  || match s with
     | EmptyString => false
     | String _ s' => Contains s' substr
     end.

(** The first [n] bytes of [s], followed by an ellipsis when [s] is longer. *)
Definition excerpt (n : nat) (s : string) : string :=
  if (String.length s <=? n)%nat then s else String.substring 0 n s ++ "...".

Section Answers.
Context {W Ctx : Type}.
Variable L : Lib Ctx.

(** The request [exec] and [execWithArgs] hand to the client, for a body. *)
Definition post (s : service W Ctx) (b : any) : http.Request :=
  {| http.Method := "POST"; http.URL := execute_url s;
     http.Header := {[ "Content-Type" := "application/json" ]}; http.Body := b |}.

Definition exec_body (query : string) : any :=
  Object (Some {[ "query" := Str query ]}).

Definition execWithArgs_body (query : string) (args : gomap any) : any :=
  match args with
  | Some _ => Object (Some {[ "query" := Str query; "query_args" := Object args ]})
  | None => Object (Some {[ "query" := Str query ]})
  end.

(** The request for body [b] is accepted and the client answers it with [resp]. *)
Definition answered (s : service W Ctx) (ctx : Ctx) (b : any) (w : W)
    (resp : http.Response) (w' : W) : Prop :=
  NewRequest_error L ctx (execute_url s) = None
  /\ http.Do (HTTP s) (post s b) w = (Ok resp, w').

(** What both functions do with the answer. *)
Definition outcome (resp : http.Response) (query : string) : result any :=
  if negb (Z.quot (http.StatusCode resp) 100 =? 2) then Err (http_error L resp query)
  else json_Decode L (http.BodyBytes resp).

(** The message an error must carry according to the specification:
    the status code, the excerpt of the body and the excerpt of the query. *)
Definition carries (msg : string) (resp : http.Response) (query : string) : Prop :=
  Contains msg (itoa (http.StatusCode resp)) = true
  /\ Contains msg (excerpt 256 (http.BodyBytes resp)) = true
  /\ Contains msg (excerpt 200 query) = true.

(** The same with the excerpt of the body trimmed of surrounding white space. *)
Definition carries_trimmed (msg : string) (resp : http.Response) (query : string) : Prop :=
  Contains msg (itoa (http.StatusCode resp)) = true
  /\ Contains msg (strings.TrimSpace (unicode L) (excerpt 256 (http.BodyBytes resp))) = true
  /\ Contains msg (excerpt 200 query) = true.

End Answers.

(** The statement and the arguments a request carries. *)
Definition query_of (req : http.Request) : option any :=
  match http.Body req with
  | Object (Some payload) => payload !! "query"
  | _ => None
  end.

Definition query_args_of (req : http.Request) : option any :=
  match http.Body req with
  | Object (Some payload) => payload !! "query_args"
  | _ => None
  end.

(** ** Small worlds to run the package in *)

(** An instance of the library for inputs made of ASCII bytes, on which the
    slow paths are never taken. *)
Definition ascii_only : strings.Unicode :=
  {| strings.MapToUpper := id; strings.MapToLower := id;
     strings.TrimFuncIsSpace := id; strings.TrimRightFuncIsSpace := id |}.

(** A library, a client and a service for ASCII inputs: every context and
    URL is accepted, every body decodes to [null], and the client answers
    every request with [resp]. *)
Definition plain_lib : Lib unit :=
  {| unicode := ascii_only; NewRequest_error _ _ := None; json_Decode _ := Ok Null |}.

Definition answering (resp : http.Response) : http.Client unit :=
  {| http.Do _ := ret (Ok resp) |}.

Definition local_service (resp : http.Response) : service unit unit :=
  {| BaseURL := "http://localhost:8090/"; AppID := "myapp";
     HTTP := answering resp; docker := None;
     dockerOpts := {| ContainerName := ""; ImageName := ""; ImageTarPath := "";
                      ConfigPath := ""; DataPath := ""; ComposeFile := "";
                      ComposeService := "" |};
     startedDocker := false |}.

Definition newline : string := String "010" EmptyString.

(** A host on which every command succeeds and prints [out]. *)
Definition printing (out : string) : os_exec unit unit :=
  {| CombinedOutput _ _ _ := ret (out, None) |}.

(** A runner that finds the image and reports the container in state
    [status]; running, starting and stopping a container return [failure]. *)
Definition found (status : string) (failure : option error) : DockerRunner unit unit :=
  {| EnsureImageLoaded _ _ _ := ret None;
     ContainerStatus _ _ := ret (status, None);
     RunContainer _ _ := ret failure;
     StartContainer _ _ := ret failure;
     StopContainer _ _ := ret failure |}.

Definition managed (d : DockerRunner unit unit) : service unit unit :=
  WithDocker (local_service {| http.StatusCode := 200; http.BodyBytes := "[]" |})
    (Some d)
    {| ContainerName := "ditto-edge"; ImageName := "dittoedge/server:latest";
       ImageTarPath := ""; ConfigPath := "/etc/ditto/config.yaml";
       DataPath := "/var/lib/ditto"; ComposeFile := ""; ComposeService := "" |}.

(** C5 as the specification words it: on a response outside 2xx the error
    message holds the status code, the excerpt of the body (256 bytes, then
    an ellipsis) and the excerpt of the query (200 bytes). *)
Definition error_as_specified {W Ctx} (L : Lib Ctx) (s : service W Ctx) (ctx : Ctx)
    (query : string) (w : W) : Prop :=
  forall resp w',
    answered L s ctx (exec_body query) w resp w' ->
    ~ 200 <= http.StatusCode resp <= 299 ->
    exists e, exec L s ctx query w = (Err e, w')
              /\ carries (Error e) resp query.

(** * The rest of the package *)

(** ** [NewService] and [Status] *)

(** [NewService]: [client] is the [http.Client] with the 30 second timeout
    that the constructor installs. *)
Definition NewService {W Ctx} (client : http.Client W) (baseURL appID : string)
  : service W Ctx :=
  {| BaseURL := baseURL; AppID := appID; HTTP := client; docker := None;
     dockerOpts := {| ContainerName := ""; ImageName := ""; ImageTarPath := "";
                      ConfigPath := ""; DataPath := ""; ComposeFile := "";
                      ComposeService := "" |};
     startedDocker := false |}.

(** A call either returns or panics. *)
Inductive outcome_of (A : Type) : Type :=
| Returns (a : A)
| Panics.
Arguments Returns {A} a.
Arguments Panics {A}.

Section StatusProbe.
Context {W Ctx : Type}.
Variable L : Lib Ctx.
(** [resp.Status], the status line of a response. *)
Variable status_line : http.Response -> string.

(** [Status] drops the error of [http.NewRequestWithContext]; when there is
    one, [req] is nil and [req.Header.Set] dereferences it. *)
Definition Status (s : service W Ctx) (ctx : Ctx)
  : M W (outcome_of (gmap string any * option error)) :=
  let res : gmap string any :=
    {[ "baseURL" := Str (BaseURL s); "appID" := Str (AppID s) ]} in
  let* res :=
    match docker s with
    | Some d =>
        let* (st, err) := ContainerStatus d ctx (ContainerName (dockerOpts s)) in
        match err with
        | Some err => ret (<[ "dockerError" := Str (Error err) ]> res)
        | None => ret (<[ "docker" := Str st ]> res)
        end
    | None => ret (<[ "docker" := Str "disabled" ]> res)
    end in
  let url := strings.TrimRight (BaseURL s) "/" ++ "/" ++ AppID s ++ "/execute" in
  let body : gmap string string := {[ "query" := "SELECT * FROM chat LIMIT 1" ]} in
  let b := Object (Some (Str <$> body)) in
  match NewRequestWithContext L ctx http.MethodPost url b with
  | Err _ => ret Panics
  | Ok req =>
      let req := http.Header_Set req "Content-Type" "application/json" in
      let* r := http.Do (HTTP s) req in
      match r with
      | Err err =>
          let res := <[ "http" := Str "unreachable" ]> res in
          let res := <[ "httpError" := Str (Error err) ]> res in
          ret (Returns (res, None))
      | Ok resp =>
          let res := <[ "http" := Str (status_line resp) ]> res in
          ret (Returns (res, None))
      end
  end.
End StatusProbe.

(** ** Observing the commands a runner starts *)

(** A command line: the program and its arguments. *)
Definition Command : Type := string * list string.

(** The same host, on a world that also keeps the list of commands run. *)
Definition logging {W Ctx} (X : os_exec W Ctx) : os_exec (W * list Command) Ctx :=
  {| CombinedOutput ctx name args :=
       fun st => let '(r, w') := CombinedOutput X ctx name args (fst st) in
                 (r, (w', app (snd st) [(name, args)])) |}.

(** ** Vocabulary for the properties of the rest *)

(** The byte [c] occurs in [s]. *)
Fixpoint has_byte (c : ascii) (s : string) : bool :=
  match s with
  | EmptyString => false
  | String x s' => Ascii.eqb x c || has_byte c s'
  end.

(** Every double quote of [s] has a backslash right before it;
    [escaped] tells whether the byte before [s] was a backslash. *)
Fixpoint quotes_escaped (escaped : bool) (s : string) : bool :=
  match s with
  | EmptyString => true
  | String x s' =>
      if Ascii.eqb x "034" then escaped && quotes_escaped false s'
      else quotes_escaped (Ascii.eqb x "092") s'
  end.

(** Taking away the backslash in front of each double quote. *)
Fixpoint unescape (s : string) : string :=
  match s with
  | EmptyString => EmptyString
  | String x s' =>
      match s' with
      | String y _ =>
          if Ascii.eqb x "092" && Ascii.eqb y "034" then unescape s'
          else String x (unescape s')
      | EmptyString => String x EmptyString
      end
  end.

(** The calls [calls'] are the calls [calls] and at most one request more,
    posted to the execute endpoint of [s]. *)
Definition at_most_one_post {W Ctx} (s : service W Ctx) (calls calls' : list Call) : Prop :=
  calls' = calls
  \/ exists (q : string) (args : gomap any),
       calls' = app calls [CallDo (post s (execWithArgs_body q args))].

(** The three calls [InitDB] can make, in the order it makes them. *)
Definition InitDB_calls (opts : DockerOptions) : list Call :=
  [CallEnsureImageLoaded (ImageName opts) (ImageTarPath opts);
   CallContainerStatus (ContainerName opts);
   CallRunContainer opts].

(** A runner that cannot find the image. *)
Definition without_image (failure : error) : DockerRunner unit unit :=
  {| EnsureImageLoaded _ _ _ := ret (Some failure);
     ContainerStatus _ _ := ret ("", None);
     RunContainer _ _ := ret None;
     StartContainer _ _ := ret None;
     StopContainer _ _ := ret None |}.

(** A host on which every command fails with [failure] after printing [out]. *)
Definition failing (out : string) (failure : error) : os_exec unit unit :=
  {| CombinedOutput _ _ _ := ret (out, Some failure) |}.

(** A client that cannot reach the server. *)
Definition unreachable {W} (failure : error) : http.Client W :=
  {| http.Do _ := ret (Err failure) |}.

(** A library that refuses every request. *)
Definition refusing_lib (failure : error) : Lib unit :=
  {| unicode := ascii_only; NewRequest_error _ _ := Some failure;
     json_Decode _ := Ok Null |}.

(** * Properties *)

(** ** Byte strings *)

Lemma append_assoc (a b c : string) : (a ++ b) ++ c = a ++ (b ++ c).
Proof. induction a as [|x a IH]; simpl; [reflexivity | now rewrite IH]. Qed.

Lemma append_nil_r (a : string) : a ++ "" = a.
Proof. induction a as [|x a IH]; simpl; [reflexivity | now rewrite IH]. Qed.

Lemma eqb_empty_false (s : string) : s <> "" -> String.eqb s "" = false.
Proof. intros H. now apply String.eqb_neq. Qed.

Lemma Join_cons (e : string) (rest : list string) (sep : string) :
  strings.Join (e :: rest) sep = e ++ sep_concat sep rest.
Proof.
  revert e. induction rest as [|e' rest IH]; intros e.
  - simpl. now rewrite append_nil_r.
  - change (strings.Join (e :: e' :: rest) sep)
      with (e ++ sep ++ strings.Join (e' :: rest) sep).
    now rewrite IH.
Qed.

Lemma sep_concat_snoc (sep : string) (l : list string) (e : string) :
  sep_concat sep (app l [e]) = sep_concat sep l ++ sep ++ e.
Proof.
  induction l as [|x l IH]; simpl.
  - now rewrite append_nil_r.
  - now rewrite IH, !append_assoc.
Qed.

(** The builders on the inputs the specification lists. *)
Example escapeIdent_users : escapeIdent "my `users`" = "my_users".
Proof. reflexivity. Qed.

Example escapeString_quote :
  escapeString ("say " ++ dquote ++ "hi" ++ dquote)
  = "say " ++ backslash ++ dquote ++ "hi" ++ backslash ++ dquote.
Proof. reflexivity. Qed.

Example BuildSelect_plain (U : strings.Unicode) :
  BuildSelect U "users" None [] 0 "" "" = "SELECT * FROM users".
Proof. reflexivity. Qed.

Example BuildSelect_two_filters (U : strings.Unicode) :
  BuildSelect U "users" (Some {[ "name" := "Alice"; "city" := "Perth" ]})
    [("city", "Perth"); ("name", "Alice")] 5 "age" "Desc"
  = "SELECT * FROM users WHERE city == " ++ dquote ++ "Perth" ++ dquote
    ++ " AND name == " ++ dquote ++ "Alice" ++ dquote ++ " ORDER BY age DESC LIMIT 5".
Proof. reflexivity. Qed.

Example direction_words (U : strings.Unicode) :
  direction U "desc" = " DESC" /\ direction U "Asc" = " ASC"
  /\ direction U "descending" = "" /\ direction U "" = "".
Proof. repeat split. Qed.

Example TrimSpace_status (U : strings.Unicode) :
  strings.ToLower U (strings.TrimSpace U ("  Exited (0) 2 minutes ago" ++ newline))
  = "exited (0) 2 minutes ago".
Proof. reflexivity. Qed.

Example TrimRight_slashes : strings.TrimRight "http://localhost:8090//" "/" = "http://localhost:8090".
Proof. reflexivity. Qed.

(** ** Maps and the order of a [range] *)

Lemma range_of_nil {V} (m : gomap V) (ord : list (string * V)) :
  range_of m ord -> (ord = [] <-> len m = 0).
Proof.
  unfold range_of, len, entries. intros Hp. destruct m as [g|].
  - split.
    + intros ->. symmetry in Hp. apply Permutation_nil_r in Hp.
      apply map_to_list_empty_iff in Hp. subst g. now rewrite map_size_empty.
    + intros Hs. assert (size g = 0%nat) as Hz by lia.
      apply map_size_empty_iff in Hz. subst g.
      rewrite map_to_list_empty in Hp. now apply Permutation_nil_r in Hp.
  - split; [reflexivity|]. intros _. now apply Permutation_nil_r in Hp.
Qed.

Lemma range_of_None {V} : range_of (None : gomap V) [].
Proof. unfold range_of, entries. reflexivity. Qed.

Lemma len_nonneg {V} (m : gomap V) : 0 <= len m.
Proof. destruct m; simpl; lia. Qed.

Lemma range_of_lookup {V} (g : gmap string V) (ord : list (string * V)) k v :
  range_of (Some g) ord -> ((k, v) ∈ ord <-> g !! k = Some v).
Proof.
  unfold range_of, entries. intros Hp. rewrite Hp. apply elem_of_map_to_list.
Qed.

Lemma range_of_NoDup {V} (m : gomap V) (ord : list (string * V)) :
  range_of m ord -> NoDup ord.*1.
Proof.
  unfold range_of, entries. intros Hp. rewrite Hp. destruct m as [g|].
  - apply NoDup_fst_map_to_list.
  - constructor.
Qed.

(** ** The SELECT builder *)

Section SelectShape.
Variable U : strings.Unicode.

Lemma BuildSelect_filter_later (ord : list (string * string)) (b : string) (i : Z) :
  0 < i ->
  fst (fold_left BuildSelect_filter ord (b, i))
  = b ++ sep_concat " AND " (List.map filter_term ord).
Proof.
  revert b i. induction ord as [|[k v] ord IH]; intros b i Hi.
  - simpl. now rewrite append_nil_r.
  - cbn [fold_left List.map sep_concat]. unfold BuildSelect_filter at 2.
    assert ((0 <? i) = true) as -> by lia.
    rewrite IH by lia. unfold strings.WriteString, filter_term. simpl fst. simpl snd.
    now rewrite !append_assoc.
Qed.

Lemma BuildSelect_filter_first (ord : list (string * string)) (b : string) :
  ord <> [] ->
  fst (fold_left BuildSelect_filter ord (b, 0))
  = b ++ strings.Join (List.map filter_term ord) " AND ".
Proof.
  destruct ord as [|[k v] ord]; [congruence|]. intros _.
  cbn [fold_left List.map]. unfold BuildSelect_filter at 2.
  change (0 <? 0) with false. cbv iota.
  rewrite BuildSelect_filter_later by lia.
  rewrite Join_cons. unfold strings.WriteString, filter_term. simpl fst. simpl snd.
  now rewrite !append_assoc.
Qed.

Lemma BuildSelect_where (filters : gomap string) (ord : list (string * string))
    (b : string) :
  range_of filters ord ->
  (if 0 <? len filters
   then fst (fold_left BuildSelect_filter ord (strings.WriteString b " WHERE ", 0))
   else b)
  = b ++ where_clause ord.
Proof.
  intros Hr. pose proof (range_of_nil filters ord Hr) as Hnil.
  pose proof (len_nonneg filters) as Hlen.
  destruct ord as [|kv ord].
  - assert (len filters = 0) as -> by now apply Hnil.
    simpl. now rewrite append_nil_r.
  - assert ((0 <? len filters) = true) as ->.
    { apply Z.ltb_lt. destruct (Z.eq_dec (len filters) 0) as [Hz|Hz]; [|lia].
      apply Hnil in Hz. discriminate. }
    rewrite BuildSelect_filter_first by discriminate.
    unfold strings.WriteString, where_clause. now rewrite append_assoc.
Qed.

Lemma ToUpper_DESC : strings.ToUpper U "DESC" = "DESC".
Proof. reflexivity. Qed.

Lemma ToUpper_ASC : strings.ToUpper U "ASC" = "ASC".
Proof. reflexivity. Qed.

Lemma BuildSelect_eq (collection : string) (filters : gomap string)
    (ord : list (string * string)) (limit : Z) (sortBy sortOrder : string) :
  range_of filters ord ->
  BuildSelect U collection filters ord limit sortBy sortOrder
  = "SELECT * FROM " ++ escapeIdent collection ++ where_clause ord
    ++ order_clause U sortBy sortOrder ++ limit_clause limit.
Proof.
  intros Hr. unfold BuildSelect.
  rewrite (BuildSelect_where filters ord _ Hr).
  unfold strings.String_, strings.WriteString, strings.new_Builder.
  unfold order_clause, direction, same_word, limit_clause.
  rewrite ToUpper_DESC, ToUpper_ASC.
  destruct sortBy as [|c sortBy].
  - change (negb (String.eqb "" "")) with false. cbv iota.
    destruct (0 <? limit); rewrite ?append_assoc, ?append_nil_r; reflexivity.
  - change (negb (String.eqb (String c sortBy) "")) with true. cbv iota.
    destruct (String.eqb (strings.ToUpper U sortOrder) "DESC");
      [|destruct (String.eqb (strings.ToUpper U sortOrder) "ASC")];
      destruct (0 <? limit); rewrite ?append_assoc, ?append_nil_r; reflexivity.
Qed.
End SelectShape.

(** C1. For every collection, filter map, limit, sort field and sort order,
    and whatever order the runtime visits the filters in, [BuildSelect]
    returns [SELECT * FROM ] followed by the sanitized collection, then a
    WHERE clause of [field == "value"] terms joined by [ AND ] exactly when
    there are filters, then an ORDER BY clause exactly when [sortBy] is not
    empty, with [ DESC] or [ ASC] appended when [sortOrder] is that word up
    to case, then [LIMIT n] exactly when [limit > 0], in this order; with no
    filters, an empty [sortBy] and limit 0 the statement is
    [SELECT * FROM <collection>] alone. *)
Theorem BuildSelect_statement (U : strings.Unicode) (collection : string)
    (filters : gomap string) (ord : list (string * string)) (limit : Z)
    (sortBy sortOrder : string) :
  range_of filters ord ->
  BuildSelect U collection filters ord limit sortBy sortOrder
  = "SELECT * FROM " ++ escapeIdent collection ++ where_clause ord
    ++ order_clause U sortBy sortOrder ++ limit_clause limit
  /\ (where_clause ord = "" <-> len filters = 0)
  /\ (order_clause U sortBy sortOrder = "" <-> sortBy = "")
  /\ (limit_clause limit = "" <-> ~ 0 < limit)
  /\ (len filters = 0 -> sortBy = "" -> limit = 0 ->
      BuildSelect U collection filters ord limit sortBy sortOrder
      = "SELECT * FROM " ++ escapeIdent collection).
Proof.
  intros Hr. pose proof (BuildSelect_eq U collection filters ord limit sortBy sortOrder Hr) as E.
  pose proof (range_of_nil filters ord Hr) as Hnil.
  split; [exact E|]. split; [|split; [|split]].
  - rewrite <- Hnil. destruct ord; simpl; split; intros H; try reflexivity; discriminate.
  - destruct sortBy; simpl; split; intros H; try reflexivity; discriminate.
  - unfold limit_clause. destruct (0 <? limit) eqn:Hl.
    + apply Z.ltb_lt in Hl. split; [discriminate | lia].
    + apply Z.ltb_ge in Hl. split; [lia | reflexivity].
  - intros Hf -> ->. rewrite E. apply Hnil in Hf. subst ord. simpl.
    now rewrite append_nil_r.
Qed.

Lemma range_of_singleton {V} (k : string) (v : V) :
  range_of (Some {[ k := v ]}) [(k, v)].
Proof. unfold range_of, entries. now rewrite map_to_list_singleton. Qed.

Lemma BuildSelect_statement_witness :
  range_of (Some {[ "name" := "Alice" ]}) [("name", "Alice")]
  /\ BuildSelect ascii_only "users" (Some {[ "name" := "Alice" ]}) [("name", "Alice")]
       5 "age" "desc"
     = "SELECT * FROM users WHERE name == " ++ dquote ++ "Alice" ++ dquote
       ++ " ORDER BY age DESC LIMIT 5".
Proof.
  split; [apply range_of_singleton|].
  exact (proj1 (BuildSelect_statement ascii_only "users" (Some {[ "name" := "Alice" ]})
                  [("name", "Alice")] 5 "age" "desc" (range_of_singleton _ _))).
Defined.

(** ** The INSERT and UPDATE builders *)

Lemma BuildUpdate_fields (ord : list (string * any)) (parts : list string)
    (args : gmap string any) :
  fold_left BuildUpdate_field ord (parts, args)
  = (app parts (List.map set_clause ord),
     fold_left (fun a kv => <[ param_name (fst kv) := snd kv ]> a) ord args).
Proof.
  revert parts args. induction ord as [|[k v] ord IH]; intros parts args.
  - simpl. now rewrite app_nil_r.
  - cbn [fold_left List.map]. unfold BuildUpdate_field at 2. rewrite IH.
    now rewrite <- app_assoc.
Qed.

Lemma bound_other (ord : list (string * any)) (args : gmap string any) (n : string) :
  (forall kv, kv ∈ ord -> param_name (fst kv) <> n) ->
  fold_left (fun a kv => <[ param_name (fst kv) := snd kv ]> a) ord args !! n = args !! n.
Proof.
  revert args. induction ord as [|kv ord IH]; intros args Hn; [reflexivity|].
  cbn [fold_left]. rewrite IH.
  - apply lookup_insert_ne. apply Hn. left.
  - intros kv' Hin. apply Hn. now right.
Qed.

Lemma param_name_inj (k k' : string) : param_name k = param_name k' -> k = k'.
Proof. unfold param_name. simpl. congruence. Qed.

Lemma bound_field (ord : list (string * any)) (args : gmap string any) k v :
  NoDup ord.*1 -> (k, v) ∈ ord ->
  fold_left (fun a kv => <[ param_name (fst kv) := snd kv ]> a) ord args !! param_name k
  = Some v.
Proof.
  revert args. induction ord as [|[k' v'] ord IH]; intros args Hnd Hin.
  - inversion Hin.
  - cbn [fold_left]. simpl in Hnd. apply NoDup_cons in Hnd as [Hk' Hnd].
    apply elem_of_cons in Hin as [Heq|Hin].
    + inversion Heq; subst k' v'. rewrite bound_other.
      * apply lookup_insert_eq.
      * intros [k2 v2] Hin2 Heq2. apply param_name_inj in Heq2. simpl in Heq2. subst k2.
        apply Hk'. apply list_elem_of_fmap. now exists (k, v2).
    + now apply IH.
Qed.

Lemma bound_only (ord : list (string * any)) (args : gmap string any) n a :
  fold_left (fun a kv => <[ param_name (fst kv) := snd kv ]> a) ord args !! n = Some a ->
  args !! n = Some a \/ exists k, n = param_name k /\ (k, a) ∈ ord.
Proof.
  revert args. induction ord as [|[k v] ord IH]; intros args H; [now left|].
  cbn [fold_left] in H. apply IH in H as [H|(k2 & -> & Hin)].
  - simpl in H. destruct (decide (param_name k = n)) as [<-|Hne].
    + rewrite lookup_insert_eq in H. inversion H; subst. right. exists k. split; [reflexivity|left].
    + rewrite lookup_insert_ne in H by exact Hne. now left.
  - right. exists k2. split; [reflexivity|now right].
Qed.

(** C2. For a non-empty collection, a non-empty id and a non-empty patch,
    and whatever order the runtime visits the patch in, [BuildUpdate]
    succeeds with the statement
    [UPDATE <sanitized collection> SET <clauses> WHERE _id == :id], one
    clause [<sanitized k> = :p_<k>] for each patch field [k], and with an
    argument map that binds [id] to the given id, binds [p_<k>] to the patch
    value of [k] for each field, and binds nothing else. *)
Theorem BuildUpdate_statement (collection id : string) (patch : gomap any)
    (ord : list (string * any)) :
  collection <> "" -> id <> "" -> len patch <> 0 -> range_of patch ord ->
  exists args : gmap string any,
    BuildUpdate collection id patch ord
    = Ok ("UPDATE " ++ escapeIdent collection ++ " SET "
          ++ strings.Join (List.map set_clause ord) ", " ++ " WHERE _id == :id",
          Some args)
    /\ (forall k v, (k, v) ∈ ord <-> lookup_map patch k = Some v)
    /\ args !! "id" = Some (Str id)
    /\ (forall k v, lookup_map patch k = Some v -> args !! ("p_" ++ k) = Some v)
    /\ (forall n a, args !! n = Some a ->
          (n = "id" /\ a = Str id) \/ exists k, n = "p_" ++ k /\ lookup_map patch k = Some a).
Proof.
  intros Hc Hi Hp Hr.
  assert (forall k v, (k, v) ∈ ord <-> lookup_map patch k = Some v) as Hord.
  { intros k v. destruct patch as [g|]; [now apply range_of_lookup|].
    unfold range_of in Hr. simpl in Hr. apply Permutation_nil_r in Hr. subst ord.
    simpl. split; [intros H; inversion H | discriminate]. }
  unfold BuildUpdate.
  rewrite (eqb_empty_false _ Hc), (eqb_empty_false _ Hi). cbn [orb].
  apply Z.eqb_neq in Hp. rewrite Hp.
  rewrite BuildUpdate_fields. cbn [app].
  eexists. split; [reflexivity|]. split; [exact Hord|]. split; [|split].
  - rewrite bound_other; [apply lookup_singleton_eq|].
    intros kv _. unfold param_name. simpl. discriminate.
  - intros k v Hk. apply (bound_field ord _ k v).
    + exact (range_of_NoDup _ _ Hr).
    + now apply Hord.
  - intros n a H. apply bound_only in H as [H|(k & -> & Hin)].
    + left. apply lookup_singleton_Some in H. destruct H as [<- <-]. now split.
    + right. exists k. split; [reflexivity|]. now apply Hord.
Qed.

Lemma BuildUpdate_statement_witness :
  exists args : gmap string any,
    BuildUpdate "users" "u1" (Some {[ "age" := Number 31 ]}) [("age", Number 31)]
    = Ok ("UPDATE users SET age = :p_age WHERE _id == :id", Some args)
    /\ args !! "id" = Some (Str "u1")
    /\ args !! "p_age" = Some (Number 31).
Proof.
  destruct (BuildUpdate_statement "users" "u1" (Some {[ "age" := Number 31 ]})
              [("age", Number 31)])
    as (args & E & _ & Hid & Hf & _).
  - discriminate.
  - discriminate.
  - simpl. rewrite map_size_singleton. discriminate.
  - apply range_of_singleton.
  - exists args. split; [exact E|]. split; [exact Hid|].
    apply Hf. simpl. apply lookup_singleton_eq.
Defined.

(** C3. [BuildUpdate] returns an error if and only if the collection is
    empty, the id is empty or the patch is empty; the error is one of its two
    validation errors; and [UpdateRecord] then returns that error and leaves
    the world as it was: no request reaches the HTTP client. *)
Theorem BuildUpdate_validation (collection id : string) (patch : gomap any)
    (ord : list (string * any)) :
  (is_Err (BuildUpdate collection id patch ord)
   <-> collection = "" \/ id = "" \/ len patch = 0)
  /\ (forall e, BuildUpdate collection id patch ord = Err e ->
        (e = errors.New "collection and id required" \/ e = errors.New "patch is empty")
        /\ forall (W Ctx : Type) (L : Lib Ctx) (s : service W Ctx) (ctx : Ctx)
                  (w : W) (calls : list Call),
             UpdateRecord L s ctx collection id patch ord w = (Err e, w)
             /\ UpdateRecord L (recording_service s) ctx collection id patch ord (w, calls)
                = (Err e, (w, calls))).
Proof.
  unfold UpdateRecord, BuildUpdate.
  destruct (String.eqb_spec collection "") as [Hc|Hc];
    [|destruct (String.eqb_spec id "") as [Hi|Hi];
      [|destruct (Z.eqb_spec (len patch) 0) as [Hp|Hp]]]; cbn [orb].
  1-3: split; [simpl; tauto|]; intros e [= <-]; split; [tauto|];
       intros; split; reflexivity.
  destruct (fold_left BuildUpdate_field ord _) as [parts args].
  split; [simpl; tauto|]. intros e H. discriminate.
Qed.

Lemma BuildUpdate_validation_witness :
  BuildUpdate "users" "u1" None [] = Err (errors.New "patch is empty")
  /\ forall (W Ctx : Type) (L : Lib Ctx) (s : service W Ctx) (ctx : Ctx) (w : W)
            (calls : list Call),
       UpdateRecord L (recording_service s) ctx "users" "u1" None [] (w, calls)
       = (Err (errors.New "patch is empty"), (w, calls)).
Proof.
  split; [reflexivity|]. intros W Ctx L s ctx w calls.
  exact (proj2 (proj2 (proj2 (BuildUpdate_validation "users" "u1" None [])
                         (errors.New "patch is empty") eq_refl)
                  W Ctx L s ctx w calls)).
Defined.

(** C4. [BuildInsert] returns an error if and only if the collection is
    empty; otherwise it returns
    [INSERT INTO <sanitized collection> DOCUMENTS (:doc)] and the argument
    map that binds [doc], and nothing else, to the document as it was given,
    whatever the document is. *)
Theorem BuildInsert_statement (collection : string) (doc : gomap any) :
  (is_Err (BuildInsert collection doc) <-> collection = "")
  /\ (collection <> "" ->
      BuildInsert collection doc
      = Ok ("INSERT INTO " ++ escapeIdent collection ++ " DOCUMENTS (:doc)",
            Some {[ "doc" := Object doc ]})).
Proof.
  unfold BuildInsert. destruct (String.eqb_spec collection "") as [Hc|Hc]; simpl.
  - split; [tauto|]. intros H. contradiction.
  - split; [tauto|]. reflexivity.
Qed.

Lemma BuildInsert_statement_witness :
  BuildInsert "users" (Some {[ "name" := Str "Alice"; "tags" := Array [Null; Bool true] ]})
  = Ok ("INSERT INTO users DOCUMENTS (:doc)",
        Some {[ "doc" := Object (Some {[ "name" := Str "Alice";
                                        "tags" := Array [Null; Bool true] ]}) ]}).
Proof.
  apply (proj2 (BuildInsert_statement "users" _)). discriminate.
Defined.

(** ** Posting a statement: [exec] and [execWithArgs] *)

Lemma HasPrefix_app (x b : string) : strings.HasPrefix (x ++ b) x = true.
Proof.
  induction x as [|c x IH]; simpl; [now destruct b|].
  now rewrite Ascii.eqb_refl, IH.
Qed.

Lemma Contains_app (a x b : string) : Contains (a ++ x ++ b) x = true.
Proof.
  induction a as [|c a IH].
  - change ("" ++ x ++ b) with (x ++ b).
    pose proof (HasPrefix_app x b) as H.
    destruct (x ++ b); cbn [Contains]; now rewrite H.
  - change (String c a ++ x ++ b) with (String c (a ++ x ++ b)).
    cbn [Contains]. rewrite IH. apply orb_true_r.
Qed.

Lemma length_substring_le (n : nat) (s : string) :
  (String.length (String.substring 0 n s) <= n)%nat.
Proof.
  revert s. induction n as [|n IH]; intros [|c s]; simpl; try lia.
  specialize (IH s). lia.
Qed.

Lemma quot_100_is_2 (code : Z) : (Z.quot code 100 =? 2) = true <-> 200 <= code <= 299.
Proof.
  rewrite Z.eqb_eq. pose proof (Z.quot_rem' code 100) as E.
  destruct (Z_le_gt_dec 0 code) as [Hc|Hc].
  - pose proof (Z.rem_bound_pos code 100 Hc ltac:(lia)). lia.
  - pose proof (Z.rem_bound_pos_neg code 100 ltac:(lia) ltac:(lia)). lia.
Qed.

Section Posting.
Context {W Ctx : Type}.
Variable L : Lib Ctx.

Lemma exec_answered (s : service W Ctx) (ctx : Ctx) (query : string) (w : W)
    (resp : http.Response) (w' : W) :
  answered L s ctx (exec_body query) w resp w' ->
  exec L s ctx query w = (outcome L resp query, w').
Proof.
  intros [Hreq Hdo]. unfold exec, NewRequestWithContext. rewrite Hreq.
  unfold http.Header_Set, http.MethodPost. cbn [http.Method http.URL http.Header http.Body].
  rewrite map_fmap_singleton, insert_empty.
  unfold bind. unfold post, exec_body in Hdo. rewrite Hdo.
  unfold outcome, ret.
  destruct (negb _); [reflexivity|]. now destruct (json_Decode L _).
Qed.

Lemma execWithArgs_answered (s : service W Ctx) (ctx : Ctx) (query : string)
    (args : gomap any) (w : W) (resp : http.Response) (w' : W) :
  answered L s ctx (execWithArgs_body query args) w resp w' ->
  execWithArgs L s ctx query args w = (outcome L resp query, w').
Proof.
  intros [Hreq Hdo]. unfold execWithArgs, NewRequestWithContext. rewrite Hreq.
  unfold http.Header_Set, http.MethodPost. cbn [http.Method http.URL http.Header http.Body].
  rewrite insert_empty. unfold bind.
  assert (match args with
          | Some _ => <[ "query_args" := Object args ]> ({[ "query" := Str query ]} : gmap string any)
          | None => {[ "query" := Str query ]}
          end
          = match args with
            | Some _ => {[ "query" := Str query; "query_args" := Object args ]}
            | None => {[ "query" := Str query ]}
            end) as ->.
  { destruct args; [|reflexivity].
    rewrite <- !insert_empty. now apply insert_insert_ne. }
  unfold post, execWithArgs_body in Hdo.
  destruct args; rewrite Hdo; unfold outcome, ret;
    (destruct (negb _); [reflexivity|]; now destruct (json_Decode L _)).
Qed.

Lemma http_error_message (resp : http.Response) (query : string) :
  Error (http_error L resp query)
  = "ditto http " ++ itoa (http.StatusCode resp) ++ ": "
    ++ strings.TrimSpace (unicode L) (excerpt 256 (http.BodyBytes resp))
    ++ " | query: " ++ excerpt 200 query.
Proof.
  unfold http_error, excerpt. cbn [Error].
  replace (256 <? String.length (http.BodyBytes resp))%nat
    with (negb (String.length (http.BodyBytes resp) <=? 256)%nat)
    by (destruct (Nat.leb_spec (String.length (http.BodyBytes resp)) 256),
                 (Nat.ltb_spec 256 (String.length (http.BodyBytes resp)));
        simpl; (reflexivity || lia)).
  replace (200 <? String.length query)%nat
    with (negb (String.length query <=? 200)%nat)
    by (destruct (Nat.leb_spec (String.length query) 200),
                 (Nat.ltb_spec 200 (String.length query));
        simpl; (reflexivity || lia)).
  destruct (String.length (http.BodyBytes resp) <=? 256)%nat,
           (String.length query <=? 200)%nat; reflexivity.
Qed.

Lemma http_error_carries_trimmed (resp : http.Response) (query : string) :
  carries_trimmed L (Error (http_error L resp query)) resp query.
Proof.
  rewrite http_error_message.
  set (code := itoa (http.StatusCode resp)).
  set (body := strings.TrimSpace (unicode L) (excerpt 256 (http.BodyBytes resp))).
  set (q := excerpt 200 query).
  repeat split.
  - apply (Contains_app "ditto http ").
  - replace ("ditto http " ++ code ++ ": " ++ body ++ " | query: " ++ q)
      with (("ditto http " ++ code ++ ": ") ++ body ++ " | query: " ++ q)
      by now rewrite !append_assoc.
    apply Contains_app.
  - replace ("ditto http " ++ code ++ ": " ++ body ++ " | query: " ++ q)
      with (("ditto http " ++ code ++ ": " ++ body ++ " | query: ") ++ q ++ "")
      by now rewrite append_nil_r, !append_assoc.
    apply Contains_app.
Qed.
End Posting.

Lemma length_append (a b : string) :
  String.length (a ++ b) = (String.length a + String.length b)%nat.
Proof. induction a as [|x a IH]; simpl; [reflexivity | now rewrite IH]. Qed.

Lemma excerpt_length (n : nat) (s : string) :
  (String.length (excerpt n s) <= n + 3)%nat.
Proof.
  unfold excerpt. destruct (Nat.leb_spec (String.length s) n) as [H|H]; [lia|].
  rewrite length_append. pose proof (length_substring_le n s). simpl. lia.
Qed.

(** A body that ends in a newline is not in the message as it was received:
    the message is [ditto http 400: bad request | query: SELECT * FROM c]. *)
Lemma error_as_specified_fails :
  ~ error_as_specified plain_lib
      (local_service {| http.StatusCode := 400;
                        http.BodyBytes := "bad request" ++ newline |})
      tt "SELECT * FROM c" tt.
Proof.
  intros H.
  destruct (H {| http.StatusCode := 400; http.BodyBytes := "bad request" ++ newline |} tt)
    as (e & E & _ & Hbody & _).
  - split; reflexivity.
  - cbn [http.StatusCode]. lia.
  - vm_compute in E. injection E as <-. vm_compute in Hbody. discriminate.
Qed.

(** C5, amended. When the request is answered with a status outside 2xx,
    [exec] and [execWithArgs] return an error and no value; its message is
    [ditto http <code>: <body> | query: <query>] and so holds the status
    code, the excerpt of the body (its first 256 bytes, then an ellipsis
    when it was longer) trimmed of leading and trailing white space, and the
    excerpt of the query (its first 200 bytes, then an ellipsis when it was
    longer). When the status is in 2xx, what the JSON decoder makes of the
    body is returned. *)
Theorem exec_outcome {W Ctx : Type} (L : Lib Ctx) (s : service W Ctx) (ctx : Ctx)
    (query : string) (args : gomap any) (w : W) (resp : http.Response) (w' : W) :
  (answered L s ctx (exec_body query) w resp w' ->
   exec L s ctx query w = (outcome L resp query, w'))
  /\ (answered L s ctx (execWithArgs_body query args) w resp w' ->
      execWithArgs L s ctx query args w = (outcome L resp query, w'))
  /\ (~ 200 <= http.StatusCode resp <= 299 ->
      exists e, outcome L resp query = Err e
        /\ Error e = "ditto http " ++ itoa (http.StatusCode resp) ++ ": "
                     ++ strings.TrimSpace (unicode L) (excerpt 256 (http.BodyBytes resp))
                     ++ " | query: " ++ excerpt 200 query
        /\ carries_trimmed L (Error e) resp query
        /\ (String.length (String.substring 0 256 (http.BodyBytes resp)) <= 256)%nat
        /\ (String.length (String.substring 0 200 query) <= 200)%nat)
  /\ (200 <= http.StatusCode resp <= 299 ->
      outcome L resp query = json_Decode L (http.BodyBytes resp)).
Proof.
  split; [apply exec_answered|]. split; [apply execWithArgs_answered|].
  unfold outcome. split; intros Hc.
  - destruct (Z.quot (http.StatusCode resp) 100 =? 2) eqn:E.
    + apply quot_100_is_2 in E. contradiction.
    + cbn [negb]. eexists. split; [reflexivity|].
      split; [apply http_error_message|].
      split; [apply http_error_carries_trimmed|].
      split; apply length_substring_le.
  - apply quot_100_is_2 in Hc. now rewrite Hc.
Qed.

Lemma exec_outcome_witness :
  exec plain_lib
    (local_service {| http.StatusCode := 400; http.BodyBytes := "bad request" ++ newline |})
    tt "SELECT * FROM c" tt
  = (Err (errorString "ditto http 400: bad request | query: SELECT * FROM c"), tt).
Proof.
  exact (proj1 (exec_outcome plain_lib
                  (local_service {| http.StatusCode := 400;
                                    http.BodyBytes := "bad request" ++ newline |})
                  tt "SELECT * FROM c" None tt _ tt)
               (conj eq_refl eq_refl)).
Defined.

(** ** Container status *)

Lemma up_not_exited (s : string) :
  strings.HasPrefix s "up " = true -> strings.HasPrefix s "exited " = true -> False.
Proof.
  destruct s as [|c s]; simpl; [discriminate|].
  destruct (Ascii.eqb_spec c "u") as [->|]; [|discriminate].
  intros _. discriminate.
Qed.

(** C6. When the process list command succeeds with output [out], both
    runners return the same status, decided by [s], the output trimmed and
    then lower-cased: [running] when [s] starts with [up ], [exited] when it
    starts with [exited ], [not-found] when it is empty, and [s] itself
    otherwise. [Up 3 hours] is running, [Exited (0) 2 minutes ago] is
    exited, and the empty output is not-found. *)
Theorem ContainerStatus_classification {W Ctx : Type} (U : strings.Unicode)
    (X : os_exec W Ctx) (ctx : Ctx) (name out : string) (w w' : W) :
  CombinedOutput X ctx "bash" (docker_ps name) w = ((out, None), w') ->
  exists status : string,
    ContainerStatus (NewDockerRunnerDefault U X) ctx name w = ((status, None), w')
    /\ ContainerStatus (NewComposeRunnerDefault U X) ctx name w = ((status, None), w')
    /\ (strings.HasPrefix (strings.ToLower U (strings.TrimSpace U out)) "up " = true ->
        status = "running")
    /\ (strings.HasPrefix (strings.ToLower U (strings.TrimSpace U out)) "exited " = true ->
        status = "exited")
    /\ (strings.ToLower U (strings.TrimSpace U out) = "" -> status = "not-found")
    /\ (strings.HasPrefix (strings.ToLower U (strings.TrimSpace U out)) "up " = false ->
        strings.HasPrefix (strings.ToLower U (strings.TrimSpace U out)) "exited " = false ->
        strings.ToLower U (strings.TrimSpace U out) <> "" ->
        status = strings.ToLower U (strings.TrimSpace U out))
    /\ (out = "Up 3 hours" -> status = "running")
    /\ (out = "Exited (0) 2 minutes ago" -> status = "exited")
    /\ (out = "" -> status = "not-found").
Proof.
  intros Hout.
  cbn [ContainerStatus NewDockerRunnerDefault NewComposeRunnerDefault].
  unfold dockerRunnerDefault_ContainerStatus, composeRunnerDefault_ContainerStatus, bind.
  rewrite Hout.
  set (s := strings.ToLower U (strings.TrimSpace U out)).
  exists (if String.eqb s "" then "not-found"
          else if strings.HasPrefix s "up " then "running"
          else if strings.HasPrefix s "exited " then "exited" else s).
  split; [|split].
  1-2: destruct (String.eqb s ""); [reflexivity|];
       destruct (strings.HasPrefix s "up "); [reflexivity|];
       destruct (strings.HasPrefix s "exited "); reflexivity.
  repeat split.
  - intros H. destruct (String.eqb_spec s "") as [E|E]; [rewrite E in H; discriminate|].
    now rewrite H.
  - intros H. destruct (String.eqb_spec s "") as [E|E]; [rewrite E in H; discriminate|].
    destruct (strings.HasPrefix s "up ") eqn:Hup; [|now rewrite H].
    destruct (up_not_exited s Hup H).
  - intros ->. reflexivity.
  - intros Hup Hex Hne. apply String.eqb_neq in Hne. now rewrite Hne, Hup, Hex.
  - intros ->. reflexivity.
  - intros ->. reflexivity.
  - intros ->. reflexivity.
Qed.

Lemma ContainerStatus_classification_witness :
  ContainerStatus (NewDockerRunnerDefault ascii_only (printing ("Up 3 hours" ++ newline)))
    tt "ditto-edge" tt
  = (("running", None), tt).
Proof.
  destruct (ContainerStatus_classification ascii_only (printing ("Up 3 hours" ++ newline))
              tt "ditto-edge" ("Up 3 hours" ++ newline) tt tt eq_refl)
    as (status & E & _ & Hup & _).
  rewrite E. now rewrite (Hup eq_refl).
Defined.

(** ** What reaches the HTTP client *)

Section Recorded.
Context {W Ctx : Type}.
Variable L : Lib Ctx.

Lemma execWithArgs_payload (query : string) (args : gomap any) :
  Object (Some match args with
               | Some _ => <[ "query_args" := Object args ]>
                             ({[ "query" := Str query ]} : gmap string any)
               | None => {[ "query" := Str query ]}
               end)
  = execWithArgs_body query args.
Proof.
  unfold execWithArgs_body. destruct args as [g|]; [|reflexivity].
  assert (<[ "query_args" := Object (Some g) ]> ({[ "query" := Str query ]} : gmap string any)
          = {[ "query" := Str query; "query_args" := Object (Some g) ]}) as ->; [|reflexivity].
  rewrite <- !insert_empty. now apply insert_insert_ne.
Qed.

(** An accepted request is handed to the client once, and the call is the
    only trace [execWithArgs] leaves. *)
Lemma execWithArgs_recorded (s : service W Ctx) (ctx : Ctx) (query : string)
    (args : gomap any) (w : W) (calls : list Call) :
  NewRequest_error L ctx (execute_url s) = None ->
  snd (execWithArgs L (recording_service s) ctx query args (w, calls))
  = (snd (http.Do (HTTP s) (post s (execWithArgs_body query args)) w),
     app calls [CallDo (post s (execWithArgs_body query args))]).
Proof.
  intros Hreq. unfold execWithArgs, NewRequestWithContext.
  change (execute_url (recording_service s)) with (execute_url s). rewrite Hreq.
  rewrite execWithArgs_payload.
  unfold http.Header_Set, http.MethodPost. cbn [http.Method http.URL http.Header http.Body].
  rewrite insert_empty. fold (post s (execWithArgs_body query args)).
  unfold bind. cbn [HTTP recording_service recording_client http.Do].
  unfold recording. cbn [fst snd].
  destruct (http.Do (HTTP s) (post s (execWithArgs_body query args)) w) as [[resp|e] w1];
    [|reflexivity].
  destruct (negb _); [reflexivity|]. now destruct (json_Decode L _).
Qed.

(** A refused request leaves no trace at all. *)
Lemma execWithArgs_refused (s : service W Ctx) (ctx : Ctx) (query : string)
    (args : gomap any) (st : W * list Call) (e : error) :
  NewRequest_error L ctx (execute_url s) = Some e ->
  execWithArgs L (recording_service s) ctx query args st = (Err e, st).
Proof.
  intros Hreq. unfold execWithArgs, NewRequestWithContext.
  change (execute_url (recording_service s)) with (execute_url s). now rewrite Hreq.
Qed.
End Recorded.

(** ** [LatestRecord] *)

(** C8. [LatestRecord ctx collection sortBy] is
    [GetRecords ctx collection 1 sortBy "DESC"]: the same result and the same
    effect on the world, and, observed at the client, the same calls; an
    accepted request carries the statement
    [SELECT * FROM <collection> [ORDER BY <sortBy> DESC] LIMIT 1] and no
    [query_args]. *)
Theorem LatestRecord_is_GetRecords {W Ctx : Type} (L : Lib Ctx) (s : service W Ctx)
    (ctx : Ctx) (collection sortBy : string) (w : W) (calls : list Call) :
  LatestRecord L s ctx collection sortBy w
  = GetRecords L s ctx collection 1 sortBy "DESC" w
  /\ LatestRecord L (recording_service s) ctx collection sortBy (w, calls)
     = GetRecords L (recording_service s) ctx collection 1 sortBy "DESC" (w, calls)
  /\ (NewRequest_error L ctx (execute_url s) = None ->
      exists req : http.Request,
        snd (snd (LatestRecord L (recording_service s) ctx collection sortBy (w, calls)))
        = app calls [CallDo req]
        /\ snd (snd (GetRecords L (recording_service s) ctx collection 1 sortBy "DESC"
                       (w, calls)))
           = app calls [CallDo req]
        /\ query_of req
           = Some (Str ("SELECT * FROM " ++ escapeIdent collection
                        ++ match sortBy with
                           | "" => ""
                           | _ => " ORDER BY " ++ escapeIdent sortBy ++ " DESC"
                           end ++ " LIMIT 1"))
        /\ query_args_of req = None).
Proof.
  split; [reflexivity|]. split; [reflexivity|]. intros Hreq.
  unfold LatestRecord, GetRecords.
  rewrite (execWithArgs_recorded L s ctx _ None w calls Hreq).
  eexists. split; [reflexivity|]. split; [reflexivity|].
  unfold query_of, query_args_of, post, execWithArgs_body. cbn [http.Body].
  rewrite lookup_singleton_eq, lookup_singleton_ne by discriminate.
  split; [|reflexivity]. do 2 f_equal.
  assert (range_of (None : gomap string) []) as Hr by apply range_of_None.
  rewrite (BuildSelect_eq (unicode L) collection None [] 1 sortBy "DESC" Hr).
  unfold where_clause, order_clause, direction, same_word, limit_clause.
  destruct sortBy; reflexivity.
Qed.

Lemma LatestRecord_is_GetRecords_witness :
  snd (snd (LatestRecord plain_lib
              (recording_service
                 (local_service {| http.StatusCode := 200; http.BodyBytes := "[]" |}))
              tt "users" "_id" (tt, [])))
  = snd (snd (GetRecords plain_lib
                (recording_service
                   (local_service {| http.StatusCode := 200; http.BodyBytes := "[]" |}))
                tt "users" 1 "_id" "DESC" (tt, []))).
Proof.
  destruct (proj2 (proj2 (LatestRecord_is_GetRecords plain_lib
                            (local_service {| http.StatusCode := 200;
                                              http.BodyBytes := "[]" |})
                            tt "users" "_id" tt [])) eq_refl)
    as (req & E1 & E2 & _).
  now rewrite E1, E2.
Defined.

(** ** [InitDB] and [Close] *)

(** C7. With a runner attached, once [EnsureImageLoaded] and
    [ContainerStatus] have succeeded: on status [running], [InitDB] returns
    nil and has called nothing else; on status [exited] or [not-found] it
    calls [RunContainer] next, calls nothing after it, never calls
    [StartContainer], and returns nil exactly when [RunContainer] did. *)
Theorem InitDB_by_status {W Ctx : Type} (s : service W Ctx) (d : DockerRunner W Ctx)
    (ctx : Ctx) (status : string) (w w1 w2 : W) :
  docker s = Some d ->
  EnsureImageLoaded d ctx (ImageName (dockerOpts s)) (ImageTarPath (dockerOpts s)) w
  = (None, w1) ->
  ContainerStatus d ctx (ContainerName (dockerOpts s)) w1 = ((status, None), w2) ->
  (status = "running" ->
   InitDB s ctx w = ((None, s), w2)
   /\ InitDB (recording_service s) ctx (w, [])
      = ((None, recording_service s),
         (w2, [CallEnsureImageLoaded (ImageName (dockerOpts s)) (ImageTarPath (dockerOpts s));
               CallContainerStatus (ContainerName (dockerOpts s))])))
  /\ (status = "exited" \/ status = "not-found" ->
      forall (err : option error) (w3 : W),
        RunContainer d ctx (dockerOpts s) w2 = (err, w3) ->
        exists (r : option error) (s' : service W Ctx),
          InitDB s ctx w = ((r, s'), w3)
          /\ fst (fst (InitDB (recording_service s) ctx (w, []))) = r
          /\ snd (InitDB (recording_service s) ctx (w, []))
             = (w3, [CallEnsureImageLoaded (ImageName (dockerOpts s))
                       (ImageTarPath (dockerOpts s));
                     CallContainerStatus (ContainerName (dockerOpts s));
                     CallRunContainer (dockerOpts s)])
          /\ (r = None <-> err = None)).
Proof.
  intros Hd He Hs. unfold InitDB.
  cbn [docker dockerOpts recording_service]. rewrite Hd. cbn [fmap option_fmap option_map].
  cbn [EnsureImageLoaded ContainerStatus RunContainer recording_runner].
  unfold bind, recording, ret. cbn [fst snd]. rewrite He. cbn [fst snd app].
  rewrite Hs. cbn [fst snd app]. split.
  - intros ->. cbn. split; reflexivity.
  - intros [-> | ->] err w3 Hrun; cbn; rewrite Hrun; destruct err as [e|];
      eexists; eexists; (split; [reflexivity|]); (split; [reflexivity|]);
      (split; [reflexivity|]); split; congruence.
Qed.

Lemma InitDB_by_status_witness :
  snd (InitDB (recording_service (managed (found "exited" None))) tt (tt, []))
  = (tt, [CallEnsureImageLoaded "dittoedge/server:latest" "";
          CallContainerStatus "ditto-edge";
          CallRunContainer (dockerOpts (managed (found "exited" None)))]).
Proof.
  destruct (proj2 (InitDB_by_status (managed (found "exited" None)) (found "exited" None)
                     tt "exited" tt tt tt eq_refl eq_refl eq_refl)
                  (or_introl eq_refl) None tt eq_refl)
    as (r & s' & _ & _ & E & _).
  exact E.
Defined.

(** C9. [Close] returns nil in every state of the service and whatever
    [StopContainer] does; so does a second [Close] after it; with a runner
    attached it calls [StopContainer] on the container name, once, and
    nothing else; and the [startedDocker] flag has no part in any of this. *)
Theorem Close_never_fails {W Ctx : Type} (s : service W Ctx) (ctx : Ctx) (w : W) :
  fst (Close s ctx w) = None
  /\ fst (Close s ctx (snd (Close s ctx w))) = None
  /\ (forall b : bool, Close (set_startedDocker b s) ctx w = Close s ctx w)
  /\ (forall (d : DockerRunner W Ctx) (calls : list Call),
        docker s = Some d ->
        Close s ctx w = (None, snd (StopContainer d ctx (ContainerName (dockerOpts s)) w))
        /\ forall b : bool,
             Close (recording_service (set_startedDocker b s)) ctx (w, calls)
             = (None, (snd (StopContainer d ctx (ContainerName (dockerOpts s)) w),
                       app calls [CallStopContainer (ContainerName (dockerOpts s))])))
  /\ (docker s = None -> forall calls : list Call,
        Close (recording_service s) ctx (w, calls) = (None, (w, calls))).
Proof.
  assert (forall (s0 : service W Ctx) (w0 : W), fst (Close s0 ctx w0) = None) as Hnil.
  { intros s0 w0. unfold Close. destruct (docker s0) as [d|]; [|reflexivity].
    unfold bind, ret. now destruct (StopContainer d ctx _ w0). }
  split; [apply Hnil|]. split; [apply Hnil|]. split; [reflexivity|]. split.
  - intros d calls Hd. unfold Close.
    cbn [docker dockerOpts recording_service set_startedDocker]. rewrite Hd.
    cbn [fmap option_fmap option_map StopContainer recording_runner].
    unfold bind, recording, ret. cbn [fst snd].
    destruct (StopContainer d ctx (ContainerName (dockerOpts s)) w) as [e w1].
    split; [reflexivity|]. intros b. reflexivity.
  - intros Hd calls. unfold Close. cbn [docker recording_service]. now rewrite Hd.
Qed.

Lemma Close_never_fails_witness :
  Close (recording_service (managed (found "running" (Some (errors.New "exit status 1")))))
    tt (tt, [])
  = (None, (tt, [CallStopContainer "ditto-edge"])).
Proof.
  exact (proj2 (proj1 (proj2 (proj2 (proj2
           (Close_never_fails (managed (found "running" (Some (errors.New "exit status 1"))))
              tt tt)))) (found "running" (Some (errors.New "exit status 1"))) [] eq_refl)
           false).
Defined.

(** ** Operations on an empty collection name *)

(** C10. With the empty collection name, [BuildSelect] still returns a
    statement, [SELECT * FROM ] followed at once by the clauses;
    [GetRecord], [GetRecords], [Search], [LatestRecord] and [DeleteRecord]
    go on to [execWithArgs] with their statement, and an accepted request
    reaches the client; whereas [BuildInsert], [BuildUpdate] and
    [DeleteAllRecords] return a validation error, and [DeleteAllRecords]
    leaves the client alone. *)
Theorem empty_collection_not_validated {W Ctx : Type} (L : Lib Ctx) (s : service W Ctx)
    (ctx : Ctx) (id : string) (filters : gomap string) (ord : list (string * string))
    (limit : Z) (sortBy sortOrder : string) (doc patch : gomap any)
    (pord : list (string * any)) (w : W) (calls : list Call) :
  range_of filters ord ->
  NewRequest_error L ctx (execute_url s) = None ->
  let sent (q : string) (args : gomap any) : list Call :=
    app calls [CallDo (post s (execWithArgs_body q args))] in
  BuildSelect (unicode L) "" None [] 0 "" "" = "SELECT * FROM "
  /\ BuildSelect (unicode L) "" filters ord limit sortBy sortOrder
     = "SELECT * FROM " ++ where_clause ord ++ order_clause (unicode L) sortBy sortOrder
       ++ limit_clause limit
  /\ snd (snd (GetRecord L (recording_service s) ctx "" id (w, calls)))
     = sent "SELECT * FROM  WHERE _id == :id LIMIT 1" (Some {[ "id" := Str id ]})
  /\ snd (snd (GetRecords L (recording_service s) ctx "" limit sortBy sortOrder (w, calls)))
     = sent ("SELECT * FROM " ++ order_clause (unicode L) sortBy sortOrder
             ++ limit_clause limit) None
  /\ snd (snd (Search L (recording_service s) ctx "" filters ord limit sortBy sortOrder
                 (w, calls)))
     = sent ("SELECT * FROM " ++ where_clause ord
             ++ order_clause (unicode L) sortBy sortOrder ++ limit_clause limit) None
  /\ snd (snd (LatestRecord L (recording_service s) ctx "" sortBy (w, calls)))
     = sent ("SELECT * FROM " ++ order_clause (unicode L) sortBy "DESC" ++ " LIMIT 1") None
  /\ snd (snd (DeleteRecord L (recording_service s) ctx "" id (w, calls)))
     = sent "DELETE FROM  WHERE _id = :id" (Some {[ "id" := Str id ]})
  /\ BuildInsert "" doc = Err (errors.New "collection required")
  /\ BuildUpdate "" id patch pord = Err (errors.New "collection and id required")
  /\ DeleteAllRecords L (recording_service s) ctx "" (w, calls)
     = (Err (errors.New "collection required"), (w, calls)).
Proof.
  intros Hr Hreq sent. subst sent. cbv beta.
  pose proof (BuildSelect_eq (unicode L) "" filters ord limit sortBy sortOrder Hr) as Efull.
  pose proof (BuildSelect_eq (unicode L) "" None [] limit sortBy sortOrder range_of_None)
    as Enone.
  pose proof (BuildSelect_eq (unicode L) "" None [] 1 sortBy "DESC" range_of_None)
    as Elatest.
  change (escapeIdent "") with "" in Efull, Enone, Elatest.
  change (where_clause []) with "" in Enone, Elatest.
  change ("" ++ ?x) with x in Efull, Enone, Elatest.
  split; [reflexivity|]. split; [exact Efull|].
  unfold GetRecord, GetRecords, Search, LatestRecord, DeleteRecord, DeleteAllRecords.
  rewrite !(execWithArgs_recorded L s ctx _ _ w calls Hreq). cbn [snd].
  rewrite Efull, Enone, Elatest.
  repeat split.
Qed.

Lemma empty_collection_not_validated_witness :
  snd (snd (GetRecord plain_lib
              (recording_service
                 (local_service {| http.StatusCode := 400; http.BodyBytes := "bad" |}))
              tt "" "u1" (tt, [])))
  = [CallDo (post (local_service {| http.StatusCode := 400; http.BodyBytes := "bad" |})
               (execWithArgs_body "SELECT * FROM  WHERE _id == :id LIMIT 1"
                  (Some {[ "id" := Str "u1" ]})))].
Proof.
  exact (proj1 (proj2 (proj2
           (empty_collection_not_validated plain_lib
              (local_service {| http.StatusCode := 400; http.BodyBytes := "bad" |})
              tt "u1" None [] 0 "" "" None None [] tt [] range_of_None eq_refl)))).
Defined.

(** * Properties of the rest of the package *)

(** ** Sanitizing identifiers and escaping literals *)

Lemma has_byte_app (c : ascii) (a b : string) :
  has_byte c (a ++ b) = has_byte c a || has_byte c b.
Proof.
  induction a as [|x a IH]; simpl; [reflexivity|]. now rewrite IH, orb_assoc.
Qed.

(** Replacing a single byte goes byte by byte. *)
Lemma replace_byte_step (c : ascii) (new : string) (x : ascii) (s : string) :
  strings.replace_from (String c "") new O (String x s)
  = if Ascii.eqb x c then new ++ strings.replace_from (String c "") new O s
    else String x (strings.replace_from (String c "") new O s).
Proof.
  cbn [strings.replace_from strings.HasPrefix String.length Nat.pred].
  destruct (Ascii.eqb x c); [destruct s|]; reflexivity.
Qed.

Lemma replace_byte_gone (c d : ascii) (new s : string) :
  has_byte d new = false -> d = c \/ has_byte d s = false ->
  has_byte d (strings.ReplaceAll s (String c "") new) = false.
Proof.
  intros Hnew Hs. unfold strings.ReplaceAll.
  induction s as [|x s IH]; [reflexivity|].
  rewrite replace_byte_step. destruct (Ascii.eqb_spec x c) as [->|Hx].
  - rewrite has_byte_app, Hnew. apply IH.
    destruct Hs as [Hd|Hs]; [now left|]. right. simpl in Hs.
    now apply orb_false_iff in Hs.
  - cbn [has_byte]. destruct Hs as [->|Hs].
    + apply Ascii.eqb_neq in Hx. rewrite Hx. apply IH. now left.
    + simpl in Hs. apply orb_false_iff in Hs as [Hxd Hs]. rewrite Hxd. apply IH. now right.
Qed.

Lemma replace_byte_absent (c : ascii) (new s : string) :
  has_byte c s = false -> strings.ReplaceAll s (String c "") new = s.
Proof.
  unfold strings.ReplaceAll. induction s as [|x s IH]; [reflexivity|].
  cbn [has_byte]. intros H. apply orb_false_iff in H as [Hx Hs].
  rewrite replace_byte_step, Hx. now rewrite IH.
Qed.

(** X1. Whatever the input, the identifier [escapeIdent] returns holds no
    backtick and no space; an input without either is returned as it is, so
    sanitizing twice is sanitizing once. *)
Theorem escapeIdent_clean (s : string) :
  has_byte "`" (escapeIdent s) = false
  /\ has_byte " " (escapeIdent s) = false
  /\ (has_byte "`" s = false -> has_byte " " s = false -> escapeIdent s = s)
  /\ escapeIdent (escapeIdent s) = escapeIdent s.
Proof.
  assert (has_byte "`" (escapeIdent s) = false) as Hb.
  { unfold escapeIdent. apply replace_byte_gone; [reflexivity|]. right.
    apply replace_byte_gone; [reflexivity | now left]. }
  assert (has_byte " " (escapeIdent s) = false) as Hs.
  { unfold escapeIdent. apply replace_byte_gone; [reflexivity | now left]. }
  assert (forall t, has_byte "`" t = false -> has_byte " " t = false -> escapeIdent t = t)
    as Hid.
  { intros t H1 H2. unfold escapeIdent.
    rewrite (replace_byte_absent "`" "" t H1). now apply replace_byte_absent. }
  repeat split; auto.
Qed.

Lemma escapeIdent_clean_witness : escapeIdent "users" = "users".
Proof.
  exact (proj1 (proj2 (proj2 (escapeIdent_clean "users"))) eq_refl eq_refl).
Defined.

Lemma escapeString_step (x : ascii) (s : string) :
  escapeString (String x s)
  = if Ascii.eqb x "034" then String "092" (String "034" (escapeString s))
    else String x (escapeString s).
Proof.
  unfold escapeString, strings.ReplaceAll, dquote, backslash.
  cbn [String.append]. rewrite replace_byte_step.
  destruct (Ascii.eqb x "034"); reflexivity.
Qed.

Lemma escapeString_head (s : string) :
  match escapeString s with
  | String x _ => Ascii.eqb x "034" = false
  | EmptyString => True
  end.
Proof.
  destruct s as [|x s]; [exact I|]. rewrite escapeString_step.
  destruct (Ascii.eqb x "034") eqn:E; [reflexivity | exact E].
Qed.

Lemma unescape_cons (x : ascii) (s : string) :
  unescape (String x s)
  = match s with
    | String y _ =>
        if Ascii.eqb x "092" && Ascii.eqb y "034" then unescape s
        else String x (unescape s)
    | EmptyString => String x EmptyString
    end.
Proof. reflexivity. Qed.

Lemma unescape_escapeString (s : string) : unescape (escapeString s) = s.
Proof.
  induction s as [|x s IH]; [reflexivity|].
  rewrite escapeString_step. pose proof (escapeString_head s) as Hh.
  destruct (Ascii.eqb_spec x "034") as [->|Hx].
  - rewrite unescape_cons. change (Ascii.eqb "092" "092" && Ascii.eqb "034" "034") with true.
    cbv iota. rewrite unescape_cons. rewrite <- IH at 2.
    now destruct (escapeString s).
  - rewrite unescape_cons. rewrite <- IH at 2.
    destruct (escapeString s) as [|y t]; [reflexivity|].
    now rewrite Hh, andb_false_r.
Qed.

(** X2. In the literal [escapeString] returns every double quote has a
    backslash right before it; nothing else is changed, so that two inputs
    with the same result are the same input; and an input without a double
    quote is returned as it is. *)
Theorem escapeString_quotes (s : string) :
  (forall escaped : bool, quotes_escaped escaped (escapeString s) = true)
  /\ (forall t : string, escapeString s = escapeString t -> s = t)
  /\ (has_byte "034" s = false -> escapeString s = s).
Proof.
  split; [|split].
  - induction s as [|x s IH]; intros escaped; [reflexivity|].
    rewrite escapeString_step. destruct (Ascii.eqb x "034") eqn:E.
    + cbn [quotes_escaped]. change (Ascii.eqb "092" "034") with false.
      change (Ascii.eqb "092" "092") with true. cbv iota.
      change (Ascii.eqb "034" "034") with true. cbv iota. now rewrite IH.
    + cbn [quotes_escaped]. rewrite E. apply IH.
  - intros t H. rewrite <- (unescape_escapeString s), <- (unescape_escapeString t).
    now rewrite H.
  - intros H. unfold escapeString, dquote. now apply replace_byte_absent.
Qed.

Lemma escapeString_quotes_witness : escapeString "Alice" = "Alice".
Proof. exact (proj2 (proj2 (escapeString_quotes "Alice")) eq_refl). Defined.

(** ** The UPDATE builder and the order of the patch *)

Lemma bound_by_membership (ord : list (string * any)) (args : gmap string any) (n : string) :
  NoDup ord.*1 ->
  fold_left (fun a kv => <[ param_name (fst kv) := snd kv ]> a) ord args !! n
  = match list_find (fun kv => n = param_name (fst kv)) ord with
    | Some (_, kv) => Some (snd kv)
    | None => args !! n
    end.
Proof.
  intros Hnd. destruct (list_find _ ord) as [[i [k v]]|] eqn:E.
  - apply list_find_Some in E as (Hi & -> & _). cbn [fst snd].
    apply bound_field; [exact Hnd|]. now apply list_elem_of_lookup_2 in Hi.
  - apply bound_other. intros kv Hin Heq.
    eapply list_find_None in E. rewrite Forall_forall in E. now apply (E kv).
Qed.

Lemma NoDup_fst_functional {V} (l : list (string * V)) (k : string) (v v' : V) :
  NoDup l.*1 -> (k, v) ∈ l -> (k, v') ∈ l -> v = v'.
Proof.
  induction l as [|[k0 v0] l IH]; intros Hnd H1 H2; [inversion H1|].
  simpl in Hnd. apply NoDup_cons in Hnd as [Hk0 Hnd].
  apply elem_of_cons in H1 as [E1|H1], H2 as [E2|H2].
  - congruence.
  - inversion E1; subst. destruct Hk0. apply list_elem_of_fmap. now exists (k0, v').
  - inversion E2; subst. destruct Hk0. apply list_elem_of_fmap. now exists (k0, v).
  - now apply IH.
Qed.

Lemma list_find_perm (ord1 ord2 : list (string * any)) (n : string) :
  NoDup ord1.*1 -> ord1 ≡ₚ ord2 ->
  snd <$> list_find (fun kv => n = param_name (fst kv)) ord1
  = snd <$> list_find (fun kv => n = param_name (fst kv)) ord2.
Proof.
  intros Hnd Hp.
  assert (NoDup ord2.*1) as Hnd2 by now rewrite <- Hp.
  destruct (list_find _ ord1) as [[i [k v]]|] eqn:E1;
    destruct (list_find _ ord2) as [[j [k' v']]|] eqn:E2; cbn [fmap option_fmap option_map snd].
  - apply list_find_Some in E1 as (Hi & -> & _), E2 as (Hj & Hk & _).
    cbn [fst] in Hk. apply param_name_inj in Hk. subst k'.
    apply list_elem_of_lookup_2 in Hi, Hj. rewrite <- Hp in Hj.
    f_equal. f_equal. exact (NoDup_fst_functional ord1 k v v' Hnd Hi Hj).
  - exfalso. apply list_find_Some in E1 as (Hi & Hk & _).
    eapply list_find_None in E2. rewrite Forall_forall in E2.
    apply list_elem_of_lookup_2 in Hi. rewrite Hp in Hi. now apply (E2 _ Hi).
  - exfalso. apply list_find_Some in E2 as (Hj & Hk & _).
    eapply list_find_None in E1. rewrite Forall_forall in E1.
    apply list_elem_of_lookup_2 in Hj. rewrite <- Hp in Hj. now apply (E1 _ Hj).
  - reflexivity.
Qed.

(** X3. The argument map [BuildUpdate] returns does not depend on the order
    in which the runtime visits the patch; and the statement does not depend
    on the values of the patch nor on the id, only on the collection and on
    the field names in the order they are visited. *)
Theorem BuildUpdate_order_and_values (collection : string) :
  (forall (id : string) (patch : gomap any) (ord1 ord2 : list (string * any))
          (q1 q2 : string) (args1 args2 : gomap any),
     range_of patch ord1 -> range_of patch ord2 ->
     BuildUpdate collection id patch ord1 = Ok (q1, args1) ->
     BuildUpdate collection id patch ord2 = Ok (q2, args2) ->
     args1 = args2)
  /\ (forall (id id' : string) (patch patch' : gomap any)
             (ord ord' : list (string * any)) (q q' : string) (args args' : gomap any),
        ord.*1 = ord'.*1 ->
        BuildUpdate collection id patch ord = Ok (q, args) ->
        BuildUpdate collection id' patch' ord' = Ok (q', args') ->
        q = q').
Proof.
  split.
  - intros id patch ord1 ord2 q1 q2 args1 args2 H1 H2. unfold BuildUpdate.
    destruct (String.eqb collection "" || String.eqb id ""); [discriminate|].
    destruct (len patch =? 0); [discriminate|].
    rewrite !BuildUpdate_fields. intros [= _ <-] [= _ <-]. f_equal.
    apply map_eq. intros n.
    rewrite !bound_by_membership by eauto using range_of_NoDup.
    assert (ord1 ≡ₚ ord2) as Hp by (unfold range_of in *; now rewrite H1, H2).
    pose proof (list_find_perm ord1 ord2 n (range_of_NoDup _ _ H1) Hp) as E.
    destruct (list_find _ ord1) as [[i kv]|], (list_find _ ord2) as [[j kv']|];
      cbn in E; congruence.
  - intros id id' patch patch' ord ord' q q' args args' Hk. unfold BuildUpdate.
    destruct (String.eqb collection "" || String.eqb id ""); [discriminate|].
    destruct (String.eqb collection "" || String.eqb id' ""); [discriminate|].
    destruct (len patch =? 0); [discriminate|].
    destruct (len patch' =? 0); [discriminate|].
    rewrite !BuildUpdate_fields. intros [= <- _] [= <- _]. cbn [app].
    assert (List.map set_clause ord = List.map set_clause ord') as ->; [|reflexivity].
    change (List.map set_clause ord)
      with (List.map (fun kv => escapeIdent (fst kv) ++ " = :" ++ param_name (fst kv)) ord).
    change (List.map set_clause ord')
      with (List.map (fun kv => escapeIdent (fst kv) ++ " = :" ++ param_name (fst kv)) ord').
    rewrite <- !(List.map_map fst (fun k => escapeIdent k ++ " = :" ++ param_name k)).
    change (List.map fst ord) with (ord.*1). change (List.map fst ord') with (ord'.*1).
    now rewrite Hk.
Qed.

Lemma BuildUpdate_order_and_values_witness :
  BuildUpdate "users" "u1" (Some {[ "age" := Number 31 ]}) [("age", Number 31)]
  = Ok ("UPDATE users SET age = :p_age WHERE _id == :id",
        Some (<[ "p_age" := Number 31 ]> {[ "id" := Str "u1" ]}))
  /\ BuildUpdate "users" "u2" (Some {[ "age" := Str "old" ]}) [("age", Str "old")]
     = Ok ("UPDATE users SET age = :p_age WHERE _id == :id",
           Some (<[ "p_age" := Str "old" ]> {[ "id" := Str "u2" ]}))
  /\ "UPDATE users SET age = :p_age WHERE _id == :id"
     = "UPDATE users SET age = :p_age WHERE _id == :id".
Proof.
  split; [reflexivity|]. split; [reflexivity|].
  exact (proj2 (BuildUpdate_order_and_values "users") "u1" "u2"
           (Some {[ "age" := Number 31 ]}) (Some {[ "age" := Str "old" ]})
           [("age", Number 31)] [("age", Str "old")] _ _ _ _ eq_refl eq_refl eq_refl).
Defined.

(** ** Requests of the data operations *)

(** X4. [exec] is [execWithArgs] without arguments: on every world the two
    return the same result and leave the same world, because the body
    [{"query": query}] they post is the same document. *)
Theorem exec_is_execWithArgs_nil {W Ctx : Type} (L : Lib Ctx) (s : service W Ctx)
    (ctx : Ctx) (query : string) (w : W) :
  exec L s ctx query w = execWithArgs L s ctx query None w.
Proof.
  unfold exec, execWithArgs. now rewrite map_fmap_singleton.
Qed.

(** X5. An error that comes before any answer is returned as it is: when
    the request is refused, its error is the result and the client is not
    called; when the client fails, its error is the result. The decoder and
    the status code play no part. *)
Theorem execWithArgs_errors_passed_on {W Ctx : Type} (L : Lib Ctx) (s : service W Ctx)
    (ctx : Ctx) (query : string) (args : gomap any) (e : error) (w w' : W)
    (calls : list Call) :
  (NewRequest_error L ctx (execute_url s) = Some e ->
   execWithArgs L s ctx query args w = (Err e, w)
   /\ execWithArgs L (recording_service s) ctx query args (w, calls) = (Err e, (w, calls)))
  /\ (NewRequest_error L ctx (execute_url s) = None ->
      http.Do (HTTP s) (post s (execWithArgs_body query args)) w = (Err e, w') ->
      execWithArgs L s ctx query args w = (Err e, w')).
Proof.
  split.
  - intros Hreq. split; [|now apply execWithArgs_refused].
    unfold execWithArgs, NewRequestWithContext. now rewrite Hreq.
  - intros Hreq Hdo. unfold execWithArgs, NewRequestWithContext. rewrite Hreq.
    rewrite execWithArgs_payload.
    unfold http.Header_Set, http.MethodPost. cbn [http.Method http.URL http.Header http.Body].
    rewrite insert_empty. fold (post s (execWithArgs_body query args)).
    unfold bind. now rewrite Hdo.
Qed.

Lemma execWithArgs_errors_passed_on_witness :
  execWithArgs (refusing_lib (errors.New "net/http: nil Context"))
    (recording_service (local_service {| http.StatusCode := 200; http.BodyBytes := "[]" |}))
    tt "SELECT * FROM c" None (tt, [])
  = (Err (errors.New "net/http: nil Context"), (tt, [])).
Proof.
  exact (proj2 (proj1 (execWithArgs_errors_passed_on
                         (refusing_lib (errors.New "net/http: nil Context"))
                         (local_service {| http.StatusCode := 200; http.BodyBytes := "[]" |})
                         tt "SELECT * FROM c" None (errors.New "net/http: nil Context")
                         tt tt []) eq_refl)).
Defined.

Lemma execWithArgs_at_most_one {W Ctx : Type} (L : Lib Ctx) (s : service W Ctx)
    (ctx : Ctx) (query : string) (args : gomap any) (w : W) (calls : list Call) :
  at_most_one_post s calls
    (snd (snd (execWithArgs L (recording_service s) ctx query args (w, calls)))).
Proof.
  destruct (NewRequest_error L ctx (execute_url s)) as [e|] eqn:E.
  - left. now rewrite (execWithArgs_refused L s ctx query args (w, calls) e E).
  - right. exists query, args. now rewrite (execWithArgs_recorded L s ctx query args w calls E).
Qed.

(** X6. Each data operation hands at most one request to the HTTP client,
    always a POST to the execute endpoint, and calls nothing else: the
    container runner is never involved, attached or not. *)
Theorem data_operations_post_at_most_once {W Ctx : Type} (L : Lib Ctx)
    (s : service W Ctx) (ctx : Ctx) (w : W) (calls : list Call) :
  (forall collection doc,
     at_most_one_post s calls
       (snd (snd (CreateDocument L (recording_service s) ctx collection doc (w, calls)))))
  /\ (forall collection id,
        at_most_one_post s calls
          (snd (snd (GetRecord L (recording_service s) ctx collection id (w, calls)))))
  /\ (forall collection limit sortBy sortOrder,
        at_most_one_post s calls
          (snd (snd (GetRecords L (recording_service s) ctx collection limit sortBy sortOrder
                       (w, calls)))))
  /\ (forall collection id patch ord,
        at_most_one_post s calls
          (snd (snd (UpdateRecord L (recording_service s) ctx collection id patch ord
                       (w, calls)))))
  /\ (forall collection id,
        at_most_one_post s calls
          (snd (snd (DeleteRecord L (recording_service s) ctx collection id (w, calls)))))
  /\ (forall collection,
        at_most_one_post s calls
          (snd (snd (DeleteAllRecords L (recording_service s) ctx collection (w, calls)))))
  /\ (forall collection sortBy,
        at_most_one_post s calls
          (snd (snd (LatestRecord L (recording_service s) ctx collection sortBy (w, calls)))))
  /\ (forall collection filters ord limit sortBy sortOrder,
        at_most_one_post s calls
          (snd (snd (Search L (recording_service s) ctx collection filters ord limit
                       sortBy sortOrder (w, calls))))).
Proof.
  repeat split; intros.
  - unfold CreateDocument. destruct (BuildInsert collection doc) as [[q a]|e];
      [apply execWithArgs_at_most_one | now left].
  - apply execWithArgs_at_most_one.
  - apply execWithArgs_at_most_one.
  - unfold UpdateRecord. destruct (BuildUpdate collection id patch ord) as [[q a]|e];
      [apply execWithArgs_at_most_one | now left].
  - apply execWithArgs_at_most_one.
  - unfold DeleteAllRecords. destruct (String.eqb collection "");
      [now left | apply execWithArgs_at_most_one].
  - apply execWithArgs_at_most_one.
  - apply execWithArgs_at_most_one.
Qed.

Lemma request_fields {W Ctx : Type} (s : service W Ctx) (q : string) (args : gmap string any) :
  query_of (post s (execWithArgs_body q (Some args))) = Some (Str q)
  /\ query_args_of (post s (execWithArgs_body q (Some args))) = Some (Object (Some args)).
Proof.
  unfold query_of, query_args_of, post, execWithArgs_body. cbn [http.Body]. split.
  - apply lookup_insert_eq.
  - rewrite lookup_insert_ne by discriminate. apply lookup_singleton_eq.
Qed.

(** X7. The id of [GetRecord] and [DeleteRecord] travels in [query_args]
    under the name [id] and is no part of the statement, which is made of
    the sanitized collection alone; [DeleteAllRecords] on a collection that
    is not empty binds the pattern [%] in the same way. *)
Theorem id_is_a_parameter {W Ctx : Type} (L : Lib Ctx) (s : service W Ctx) (ctx : Ctx)
    (collection id : string) (w : W) (calls : list Call) :
  NewRequest_error L ctx (execute_url s) = None ->
  (exists req,
     snd (snd (GetRecord L (recording_service s) ctx collection id (w, calls)))
     = app calls [CallDo req]
     /\ query_of req
        = Some (Str ("SELECT * FROM " ++ escapeIdent collection ++ " WHERE _id == :id LIMIT 1"))
     /\ query_args_of req = Some (Object (Some {[ "id" := Str id ]})))
  /\ (exists req,
        snd (snd (DeleteRecord L (recording_service s) ctx collection id (w, calls)))
        = app calls [CallDo req]
        /\ query_of req
           = Some (Str ("DELETE FROM " ++ escapeIdent collection ++ " WHERE _id = :id"))
        /\ query_args_of req = Some (Object (Some {[ "id" := Str id ]})))
  /\ (collection <> "" ->
      exists req,
        snd (snd (DeleteAllRecords L (recording_service s) ctx collection (w, calls)))
        = app calls [CallDo req]
        /\ query_of req
           = Some (Str ("DELETE FROM " ++ escapeIdent collection ++ " WHERE _id LIKE :pattern"))
        /\ query_args_of req = Some (Object (Some {[ "pattern" := Str "%" ]}))).
Proof.
  intros Hreq. split; [|split].
  - unfold GetRecord. rewrite (execWithArgs_recorded L s ctx _ _ w calls Hreq).
    eexists. split; [reflexivity|]. apply request_fields.
  - unfold DeleteRecord. rewrite (execWithArgs_recorded L s ctx _ _ w calls Hreq).
    eexists. split; [reflexivity|]. apply request_fields.
  - intros Hc. unfold DeleteAllRecords. rewrite (eqb_empty_false _ Hc).
    rewrite (execWithArgs_recorded L s ctx _ _ w calls Hreq).
    eexists. split; [reflexivity|]. apply request_fields.
Qed.

Lemma id_is_a_parameter_witness :
  exists req,
    snd (snd (GetRecord plain_lib
                (recording_service
                   (local_service {| http.StatusCode := 200; http.BodyBytes := "[]" |}))
                tt "users" "u1" (tt, [])))
    = [CallDo req]
    /\ query_of req = Some (Str "SELECT * FROM users WHERE _id == :id LIMIT 1")
    /\ query_args_of req = Some (Object (Some {[ "id" := Str "u1" ]})).
Proof.
  exact (proj1 (id_is_a_parameter plain_lib
                  (local_service {| http.StatusCode := 200; http.BodyBytes := "[]" |})
                  tt "users" "u1" tt [] eq_refl)).
Defined.

(** X8. [CreateDocument] with an empty collection returns the validation
    error of [BuildInsert] and leaves the client alone; with any other
    collection an accepted request carries the INSERT statement and binds
    the document, as it was given, to [doc] in [query_args], also when the
    document is the nil map. *)
Theorem CreateDocument_request {W Ctx : Type} (L : Lib Ctx) (s : service W Ctx) (ctx : Ctx)
    (collection : string) (doc : gomap any) (w : W) (calls : list Call) :
  (collection = "" ->
   CreateDocument L (recording_service s) ctx collection doc (w, calls)
   = (Err (errors.New "collection required"), (w, calls)))
  /\ (collection <> "" -> NewRequest_error L ctx (execute_url s) = None ->
      exists req,
        snd (snd (CreateDocument L (recording_service s) ctx collection doc (w, calls)))
        = app calls [CallDo req]
        /\ query_of req
           = Some (Str ("INSERT INTO " ++ escapeIdent collection ++ " DOCUMENTS (:doc)"))
        /\ query_args_of req = Some (Object (Some {[ "doc" := Object doc ]}))).
Proof.
  unfold CreateDocument, BuildInsert. split.
  - intros ->. reflexivity.
  - intros Hc Hreq. rewrite (eqb_empty_false _ Hc).
    rewrite (execWithArgs_recorded L s ctx _ _ w calls Hreq).
    eexists. split; [reflexivity|]. apply request_fields.
Qed.

Lemma CreateDocument_request_witness :
  exists req,
    snd (snd (CreateDocument plain_lib
                (recording_service
                   (local_service {| http.StatusCode := 200; http.BodyBytes := "[]" |}))
                tt "users" None (tt, [])))
    = [CallDo req]
    /\ query_of req = Some (Str "INSERT INTO users DOCUMENTS (:doc)")
    /\ query_args_of req = Some (Object (Some {[ "doc" := Object None ]})).
Proof.
  refine (proj2 (CreateDocument_request plain_lib
                   (local_service {| http.StatusCode := 200; http.BodyBytes := "[]" |})
                   tt "users" None tt []) _ eq_refl).
  discriminate.
Defined.

(** ** [InitDB] on every path *)

(** X9. Whatever the runner does, [InitDB] makes its calls in the order
    [EnsureImageLoaded], [ContainerStatus], [RunContainer] and stops at the
    first that fails: the calls it makes are the first [n] of these three.
    It never calls [StartContainer] or [StopContainer] and never reaches the
    HTTP client; without a runner it makes no call at all and returns nil,
    the service and the world unchanged. *)
Theorem InitDB_calls_in_order {W Ctx : Type} (s : service W Ctx) (ctx : Ctx) (w : W)
    (calls : list Call) :
  (exists n : nat,
     snd (snd (InitDB (recording_service s) ctx (w, calls)))
     = app calls (take n (InitDB_calls (dockerOpts s))))
  /\ (docker s = None ->
      InitDB s ctx w = ((None, s), w)
      /\ InitDB (recording_service s) ctx (w, calls)
         = ((None, recording_service s), (w, calls))).
Proof.
  split.
  - unfold InitDB, InitDB_calls. cbn [docker dockerOpts recording_service].
    destruct (docker s) as [d|]; cbn [fmap option_fmap option_map];
      [|exists 0%nat; cbn; now rewrite app_nil_r].
    cbn [EnsureImageLoaded ContainerStatus RunContainer recording_runner].
    unfold bind, recording, ret. cbn [fst snd].
    destruct (EnsureImageLoaded d ctx _ _ w) as [[e|] w1]; cbn [fst snd];
      [exists 1%nat; reflexivity|].
    destruct (ContainerStatus d ctx _ w1) as [[st [e|]] w2]; cbn [fst snd];
      [exists 2%nat; now rewrite <- app_assoc|].
    destruct (String.eqb st "running"); [exists 2%nat; now rewrite <- app_assoc|].
    destruct (String.eqb st "exited"); cbn [fst snd];
      destruct (RunContainer d ctx (dockerOpts s) w2) as [[e|] w3]; cbn [fst snd];
      exists 3%nat; now rewrite <- !app_assoc.
  - intros Hd. unfold InitDB. cbn [docker recording_service]. now rewrite Hd.
Qed.

Lemma InitDB_calls_in_order_witness :
  InitDB (recording_service
            (local_service {| http.StatusCode := 200; http.BodyBytes := "[]" |}))
    tt (tt, [])
  = ((None, recording_service
              (local_service {| http.StatusCode := 200; http.BodyBytes := "[]" |})),
     (tt, [])).
Proof.
  exact (proj2 (proj2 (InitDB_calls_in_order
                         (local_service {| http.StatusCode := 200; http.BodyBytes := "[]" |})
                         tt tt []) eq_refl)).
Defined.

(** X10. When [EnsureImageLoaded] fails, [InitDB] returns its error wrapped
    behind [ensure image: ] and asks nothing more of the runner; when
    [ContainerStatus] fails, it returns that error wrapped behind
    [container status: ], whatever status came with it, and runs nothing.
    The service is returned unchanged in both cases. *)
Theorem InitDB_early_failure {W Ctx : Type} (s : service W Ctx) (d : DockerRunner W Ctx)
    (ctx : Ctx) (w w1 : W) :
  docker s = Some d ->
  (forall e : error,
     EnsureImageLoaded d ctx (ImageName (dockerOpts s)) (ImageTarPath (dockerOpts s)) w
     = (Some e, w1) ->
     InitDB s ctx w = ((Some (wrapError ("ensure image: " ++ Error e) e), s), w1)
     /\ snd (snd (InitDB (recording_service s) ctx (w, [])))
        = take 1 (InitDB_calls (dockerOpts s)))
  /\ (forall (e : error) (status : string) (w2 : W),
        EnsureImageLoaded d ctx (ImageName (dockerOpts s)) (ImageTarPath (dockerOpts s)) w
        = (None, w1) ->
        ContainerStatus d ctx (ContainerName (dockerOpts s)) w1 = ((status, Some e), w2) ->
        InitDB s ctx w = ((Some (wrapError ("container status: " ++ Error e) e), s), w2)
        /\ snd (snd (InitDB (recording_service s) ctx (w, [])))
           = take 2 (InitDB_calls (dockerOpts s))).
Proof.
  intros Hd. unfold InitDB, InitDB_calls, Errorf_w.
  cbn [docker dockerOpts recording_service]. rewrite Hd. cbn [fmap option_fmap option_map].
  cbn [EnsureImageLoaded ContainerStatus RunContainer recording_runner].
  unfold bind, recording, ret. cbn [fst snd]. split.
  - intros e He. rewrite He. split; reflexivity.
  - intros e status w2 He Hs. rewrite He. cbn [fst snd]. rewrite Hs. split; reflexivity.
Qed.

Lemma InitDB_early_failure_witness :
  InitDB (managed (without_image (errors.New "no such image"))) tt tt
  = ((Some (wrapError "ensure image: no such image" (errors.New "no such image")),
      managed (without_image (errors.New "no such image"))), tt).
Proof.
  exact (proj1 (proj1 (InitDB_early_failure
                         (managed (without_image (errors.New "no such image")))
                         (without_image (errors.New "no such image")) tt tt tt eq_refl)
                  (errors.New "no such image") eq_refl)).
Defined.

(** X11. Once the image is there and the status is known and is not
    [running], [InitDB] runs the container, for [exited], [not-found] and
    any other status alike. A failure comes back wrapped behind
    [start container: ] when the status was [exited] and behind
    [run container: ] otherwise; [startedDocker] is set exactly when the run
    succeeded and the status was not [exited], and nothing else of the
    service changes. *)
Theorem InitDB_run_outcome {W Ctx : Type} (s : service W Ctx) (d : DockerRunner W Ctx)
    (ctx : Ctx) (status : string) (r : option error) (w w1 w2 w3 : W) :
  docker s = Some d ->
  EnsureImageLoaded d ctx (ImageName (dockerOpts s)) (ImageTarPath (dockerOpts s)) w
  = (None, w1) ->
  ContainerStatus d ctx (ContainerName (dockerOpts s)) w1 = ((status, None), w2) ->
  status <> "running" ->
  RunContainer d ctx (dockerOpts s) w2 = (r, w3) ->
  InitDB s ctx w
  = ((match r with
      | Some e =>
          Some (wrapError ((if String.eqb status "exited" then "start container: "
                            else "run container: ") ++ Error e) e)
      | None => None
      end,
      match r with
      | Some _ => s
      | None => if String.eqb status "exited" then s else set_startedDocker true s
      end), w3).
Proof.
  intros Hd He Hs Hrun Hr. unfold InitDB, Errorf_w. rewrite Hd.
  unfold bind, ret. rewrite He, Hs. apply String.eqb_neq in Hrun. rewrite Hrun.
  destruct (String.eqb status "exited"); rewrite Hr; destruct r; reflexivity.
Qed.

Lemma InitDB_run_outcome_witness :
  InitDB (managed (found "created" None)) tt tt
  = ((None, set_startedDocker true (managed (found "created" None))), tt).
Proof.
  refine (InitDB_run_outcome (managed (found "created" None)) (found "created" None)
            tt "created" None tt tt tt tt eq_refl eq_refl eq_refl _ eq_refl).
  discriminate.
Defined.

(** ** The runners *)

(** X12. When the process list command fails, both runners return the empty
    status with the error wrapped behind [docker ps: ] and do not look at
    the output; when it succeeds, the status they return is never empty. *)
Theorem ContainerStatus_never_empty {W Ctx : Type} (U : strings.Unicode)
    (X : os_exec W Ctx) (ctx : Ctx) (name out : string) (w w' : W) :
  (forall e : error,
     CombinedOutput X ctx "bash" (docker_ps name) w = ((out, Some e), w') ->
     ContainerStatus (NewDockerRunnerDefault U X) ctx name w
     = (("", Some (wrapError ("docker ps: " ++ Error e) e)), w')
     /\ ContainerStatus (NewComposeRunnerDefault U X) ctx name w
        = (("", Some (wrapError ("docker ps: " ++ Error e) e)), w'))
  /\ (CombinedOutput X ctx "bash" (docker_ps name) w = ((out, None), w') ->
      exists status : string,
        status <> ""
        /\ ContainerStatus (NewDockerRunnerDefault U X) ctx name w = ((status, None), w')
        /\ ContainerStatus (NewComposeRunnerDefault U X) ctx name w = ((status, None), w')).
Proof.
  cbn [ContainerStatus NewDockerRunnerDefault NewComposeRunnerDefault].
  unfold dockerRunnerDefault_ContainerStatus, composeRunnerDefault_ContainerStatus, bind, ret.
  split.
  - intros e H. rewrite H. split; reflexivity.
  - intros H. rewrite H.
    set (s := strings.ToLower U (strings.TrimSpace U out)).
    destruct (String.eqb_spec s "") as [E|E]; [exists "not-found"; repeat split; discriminate|].
    destruct (strings.HasPrefix s "up "); [exists "running"; repeat split; discriminate|].
    destruct (strings.HasPrefix s "exited "); [exists "exited"; repeat split; discriminate|].
    exists s. repeat split. exact E.
Qed.

Lemma ContainerStatus_never_empty_witness :
  ContainerStatus (NewComposeRunnerDefault ascii_only
                     (failing "Cannot connect to the Docker daemon"
                        (errors.New "exit status 1")))
    tt "ditto-edge" tt
  = (("", Some (wrapError "docker ps: exit status 1" (errors.New "exit status 1"))), tt).
Proof.
  exact (proj2 (proj1 (ContainerStatus_never_empty ascii_only
                         (failing "Cannot connect to the Docker daemon"
                            (errors.New "exit status 1"))
                         tt "ditto-edge" "Cannot connect to the Docker daemon" tt tt)
                  (errors.New "exit status 1") eq_refl)).
Defined.

Lemma runCmd_logging {W Ctx : Type} (X : os_exec W Ctx) (ctx : Ctx) (name : string)
    (args : list string) (w : W) (cmds : list Command) :
  runCmd (logging X) ctx name args (w, cmds)
  = (fst (runCmd X ctx name args w),
     (snd (runCmd X ctx name args w), app cmds [(name, args)])).
Proof.
  unfold runCmd, bind, ret, logging. cbn [CombinedOutput fst snd].
  now destruct (CombinedOutput X ctx name args w) as [[out [e|]] w'].
Qed.

Lemma CombinedOutput_logging {W Ctx : Type} (X : os_exec W Ctx) (ctx : Ctx) (name : string)
    (args : list string) (w : W) (cmds : list Command) :
  CombinedOutput (logging X) ctx name args (w, cmds)
  = (fst (CombinedOutput X ctx name args w),
     (snd (CombinedOutput X ctx name args w), app cmds [(name, args)])).
Proof.
  unfold logging. cbn [CombinedOutput fst snd].
  now destruct (CombinedOutput X ctx name args w).
Qed.

Lemma runCmd_result {W Ctx : Type} (X : os_exec W Ctx) (ctx : Ctx) (name : string)
    (args : list string) (w : W) (out : string) (oe : option error) (w' : W) :
  CombinedOutput X ctx name args w = ((out, oe), w') ->
  snd (runCmd X ctx name args w) = w'
  /\ (fst (runCmd X ctx name args w) = None <-> oe = None).
Proof.
  intros H. unfold runCmd, bind, ret. rewrite H.
  destruct oe; cbn; split; try reflexivity; split; congruence.
Qed.

(** X13. [Close] returns nil with either runner of the package, whatever
    the commands do. With the plain runner it runs [docker stop <name>];
    with the compose runner it runs [docker compose stop <name>],
    [docker stop <name>] and [docker rm -f <name>], all three and in this
    order, also when one of them fails. *)
Theorem Close_commands {W Ctx : Type} (U : strings.Unicode) (X : os_exec W Ctx)
    (s : service (W * list Command) Ctx) (ctx : Ctx) (w : W) (cmds : list Command) :
  (docker s = Some (NewDockerRunnerDefault U (logging X)) ->
   fst (Close s ctx (w, cmds)) = None
   /\ snd (snd (Close s ctx (w, cmds)))
      = app cmds [("docker", ["stop"; ContainerName (dockerOpts s)])])
  /\ (docker s = Some (NewComposeRunnerDefault U (logging X)) ->
      fst (Close s ctx (w, cmds)) = None
      /\ snd (snd (Close s ctx (w, cmds)))
         = app cmds [("docker", ["compose"; "stop"; ContainerName (dockerOpts s)]);
                     ("docker", ["stop"; ContainerName (dockerOpts s)]);
                     ("docker", ["rm"; "-f"; ContainerName (dockerOpts s)])]).
Proof.
  split; intros Hd; unfold Close; rewrite Hd;
    cbn [StopContainer NewDockerRunnerDefault NewComposeRunnerDefault];
    unfold dockerRunnerDefault_StopContainer, composeRunnerDefault_StopContainer, bind, ret.
  - rewrite runCmd_logging. split; reflexivity.
  - repeat (rewrite runCmd_logging; cbv beta iota zeta; cbn [fst snd]).
    rewrite <- !app_assoc. split; reflexivity.
Qed.

Lemma Close_commands_witness :
  fst (Close (WithDocker (NewService (unreachable (errors.New "connection refused"))
                            "http://localhost:8090" "myapp")
                (Some (NewComposeRunnerDefault ascii_only
                         (logging (failing "no such service" (errors.New "exit status 1")))))
                (dockerOpts (managed (found "running" None))))
         tt (tt, []))
  = None
  /\ snd (snd (Close (WithDocker (NewService (unreachable (errors.New "connection refused"))
                                    "http://localhost:8090" "myapp")
                        (Some (NewComposeRunnerDefault ascii_only
                                 (logging (failing "no such service"
                                             (errors.New "exit status 1")))))
                        (dockerOpts (managed (found "running" None))))
                 tt (tt, [])))
     = [("docker", ["compose"; "stop"; "ditto-edge"]);
        ("docker", ["stop"; "ditto-edge"]);
        ("docker", ["rm"; "-f"; "ditto-edge"])].
Proof.
  exact (proj2 (Close_commands ascii_only
                  (failing "no such service" (errors.New "exit status 1"))
                  (WithDocker (NewService (unreachable (errors.New "connection refused"))
                                 "http://localhost:8090" "myapp")
                     (Some (NewComposeRunnerDefault ascii_only
                              (logging (failing "no such service"
                                          (errors.New "exit status 1")))))
                     (dockerOpts (managed (found "running" None))))
                  tt tt []) eq_refl).
Defined.

(** X14. Both runners inspect the image first and run nothing more when it
    is there. When it is missing, the plain runner runs
    [docker load -i <tarPath>] whatever the path, the empty one included,
    and fails when the load fails; the compose runner does the same for a
    path that is not empty, and for the empty path returns nil without
    running anything more. *)
Theorem EnsureImageLoaded_commands {W Ctx : Type} (U : strings.Unicode) (X : os_exec W Ctx)
    (ctx : Ctx) (imageName tarPath out : string) (oe : option error) (w w1 : W)
    (cmds : list Command) :
  CombinedOutput X ctx "docker" ["image"; "inspect"; imageName] w = ((out, oe), w1) ->
  (oe = None ->
   EnsureImageLoaded (NewDockerRunnerDefault U (logging X)) ctx imageName tarPath (w, cmds)
   = (None, (w1, app cmds [("docker", ["image"; "inspect"; imageName])]))
   /\ EnsureImageLoaded (NewComposeRunnerDefault U (logging X)) ctx imageName tarPath (w, cmds)
      = (None, (w1, app cmds [("docker", ["image"; "inspect"; imageName])])))
  /\ (oe <> None ->
      (let r := EnsureImageLoaded (NewDockerRunnerDefault U (logging X)) ctx imageName
                  tarPath (w, cmds) in
       snd (snd r) = app cmds [("docker", ["image"; "inspect"; imageName]);
                               ("docker", ["load"; "-i"; tarPath])]
       /\ (fst r = None <-> fst (runCmd X ctx "docker" ["load"; "-i"; tarPath] w1) = None))
      /\ (tarPath = "" ->
          EnsureImageLoaded (NewComposeRunnerDefault U (logging X)) ctx imageName tarPath
            (w, cmds)
          = (None, (w1, app cmds [("docker", ["image"; "inspect"; imageName])])))
      /\ (tarPath <> "" ->
          EnsureImageLoaded (NewComposeRunnerDefault U (logging X)) ctx imageName tarPath
            (w, cmds)
          = EnsureImageLoaded (NewDockerRunnerDefault U (logging X)) ctx imageName tarPath
              (w, cmds))).
Proof.
  intros Hi. destruct (runCmd_result X ctx _ _ w out oe w1 Hi) as [Hw Hnil].
  cbn [EnsureImageLoaded NewDockerRunnerDefault NewComposeRunnerDefault].
  unfold dockerRunnerDefault_EnsureImageLoaded, composeRunnerDefault_EnsureImageLoaded,
    bind, ret.
  rewrite !runCmd_logging, Hw. cbn [fst snd]. split.
  - intros Hoe. apply Hnil in Hoe. rewrite Hoe. split; reflexivity.
  - intros Hoe. destruct (fst (runCmd X ctx "docker" ["image"; "inspect"; imageName] w)) as [e|];
      [|destruct Hoe; now apply Hnil].
    rewrite !runCmd_logging. cbn [fst snd]. split; [|split].
    + destruct (fst (runCmd X ctx "docker" ["load"; "-i"; tarPath] w1)); cbn [fst snd];
        rewrite <- app_assoc; (split; [reflexivity|]); split; congruence.
    + intros ->. reflexivity.
    + intros Ht. rewrite (eqb_empty_false _ Ht). cbn [negb].
      rewrite !runCmd_logging. reflexivity.
Qed.

Lemma EnsureImageLoaded_commands_witness :
  EnsureImageLoaded
    (NewComposeRunnerDefault ascii_only
       (logging (failing "No such image" (errors.New "exit status 1"))))
    tt "dittoedge/server:latest" "" (tt, [])
  = (None, (tt, [("docker", ["image"; "inspect"; "dittoedge/server:latest"])])).
Proof.
  refine (proj1 (proj2 (proj2 (EnsureImageLoaded_commands ascii_only
                                 (failing "No such image" (errors.New "exit status 1"))
                                 tt "dittoedge/server:latest" "" "No such image"
                                 (Some (errors.New "exit status 1")) tt tt [] eq_refl) _))
            eq_refl).
  discriminate.
Defined.

(** X15. [InitDB] over the plain runner, command by command. When the
    image is there and the process list shows the container up, [InitDB]
    has run the inspection and the process list and nothing else, and
    changes nothing. When the process list is empty, it goes on to
    [docker run -d --name <name> -p 127.0.0.1:8090:8090 ...] with the two
    mounts and the image, and, that command succeeding, sets
    [startedDocker]. *)
Theorem InitDB_plain_runner {W Ctx : Type} (U : strings.Unicode) (X : os_exec W Ctx)
    (s : service (W * list Command) Ctx) (ctx : Ctx) (o1 out : string) (w w1 w2 : W) :
  docker s = Some (NewDockerRunnerDefault U (logging X)) ->
  CombinedOutput X ctx "docker" ["image"; "inspect"; ImageName (dockerOpts s)] w
  = ((o1, None), w1) ->
  CombinedOutput X ctx "bash" (docker_ps (ContainerName (dockerOpts s))) w1
  = ((out, None), w2) ->
  (strings.HasPrefix (strings.ToLower U (strings.TrimSpace U out)) "up " = true ->
   InitDB s ctx (w, [])
   = ((None, s),
      (w2, [("docker", ["image"; "inspect"; ImageName (dockerOpts s)]);
            ("bash", docker_ps (ContainerName (dockerOpts s)))])))
  /\ (strings.ToLower U (strings.TrimSpace U out) = "" ->
      forall (o3 : string) (w3 : W),
        CombinedOutput X ctx "docker"
          ["run"; "-d"; "--name"; ContainerName (dockerOpts s);
           "-p"; "127.0.0.1:8090:8090";
           "-v"; ConfigPath (dockerOpts s) ++ ":/config.yaml";
           "-v"; DataPath (dockerOpts s) ++ ":/data";
           ImageName (dockerOpts s); "run"; "-c"; "/config.yaml"] w2
        = ((o3, None), w3) ->
        InitDB s ctx (w, [])
        = ((None, set_startedDocker true s),
           (w3, [("docker", ["image"; "inspect"; ImageName (dockerOpts s)]);
                 ("bash", docker_ps (ContainerName (dockerOpts s)));
                 ("docker",
                  ["run"; "-d"; "--name"; ContainerName (dockerOpts s);
                   "-p"; "127.0.0.1:8090:8090";
                   "-v"; ConfigPath (dockerOpts s) ++ ":/config.yaml";
                   "-v"; DataPath (dockerOpts s) ++ ":/data";
                   ImageName (dockerOpts s); "run"; "-c"; "/config.yaml"])]))).
Proof.
  intros Hd Hi Hps. unfold InitDB. rewrite Hd.
  cbn [EnsureImageLoaded ContainerStatus RunContainer NewDockerRunnerDefault].
  unfold dockerRunnerDefault_EnsureImageLoaded, dockerRunnerDefault_ContainerStatus,
    dockerRunnerDefault_RunContainer, bind, ret.
  rewrite runCmd_logging. cbn [fst snd].
  destruct (runCmd_result X ctx _ _ w o1 None w1 Hi) as [-> Hnil].
  rewrite (proj2 Hnil eq_refl).
  rewrite CombinedOutput_logging, Hps. cbn [fst snd app].
  set (st := strings.ToLower U (strings.TrimSpace U out)). split.
  - intros Hup. destruct (String.eqb_spec st "") as [E|E]; [rewrite E in Hup; discriminate|].
    rewrite Hup. reflexivity.
  - intros -> o3 w3 Hrun. change (String.eqb "" "") with true. cbv beta iota zeta.
    change (String.eqb "not-found" "running") with false.
    change (String.eqb "not-found" "exited") with false. cbv beta iota zeta.
    rewrite runCmd_logging. cbn [fst snd app].
    destruct (runCmd_result X ctx _ _ w2 o3 None w3 Hrun) as [-> Hnil3].
    rewrite (proj2 Hnil3 eq_refl). reflexivity.
Qed.

Lemma InitDB_plain_runner_witness :
  InitDB (WithDocker (NewService (unreachable (errors.New "connection refused"))
                        "http://localhost:8090" "myapp")
            (Some (NewDockerRunnerDefault ascii_only (logging (printing "Up 3 hours"))))
            (dockerOpts (managed (found "running" None))))
    tt (tt, [])
  = ((None,
      WithDocker (NewService (unreachable (errors.New "connection refused"))
                    "http://localhost:8090" "myapp")
        (Some (NewDockerRunnerDefault ascii_only (logging (printing "Up 3 hours"))))
        (dockerOpts (managed (found "running" None)))),
     (tt, [("docker", ["image"; "inspect"; "dittoedge/server:latest"]);
           ("bash", docker_ps "ditto-edge")])).
Proof.
  exact (proj1 (InitDB_plain_runner ascii_only (printing "Up 3 hours")
                  (WithDocker (NewService (unreachable (errors.New "connection refused"))
                                 "http://localhost:8090" "myapp")
                     (Some (NewDockerRunnerDefault ascii_only
                              (logging (printing "Up 3 hours"))))
                     (dockerOpts (managed (found "running" None))))
                  tt "Up 3 hours" "Up 3 hours" tt tt tt eq_refl eq_refl eq_refl)
               eq_refl).
Defined.

(** X16. What [RunContainer] reads of the options. The compose runner
    reads the compose file and the service name only, and an empty service
    name stands for [ditto-edge-server]; the plain runner reads the
    container name, the image and the two paths, and not the compose
    settings. *)
Theorem RunContainer_options {W Ctx : Type} (U : strings.Unicode) (X : os_exec W Ctx)
    (ctx : Ctx) (opts opts' : DockerOptions) :
  (ComposeFile opts = ComposeFile opts' ->
   (if String.eqb (ComposeService opts) "" then "ditto-edge-server" else ComposeService opts)
   = (if String.eqb (ComposeService opts') "" then "ditto-edge-server"
      else ComposeService opts') ->
   RunContainer (NewComposeRunnerDefault U X) ctx opts
   = RunContainer (NewComposeRunnerDefault U X) ctx opts')
  /\ (ContainerName opts = ContainerName opts' -> ImageName opts = ImageName opts' ->
      ConfigPath opts = ConfigPath opts' -> DataPath opts = DataPath opts' ->
      RunContainer (NewDockerRunnerDefault U X) ctx opts
      = RunContainer (NewDockerRunnerDefault U X) ctx opts').
Proof.
  cbn [RunContainer NewDockerRunnerDefault NewComposeRunnerDefault].
  unfold composeRunnerDefault_RunContainer, dockerRunnerDefault_RunContainer. split.
  - intros Hf Hs. now rewrite Hf, Hs.
  - intros Hn Hi Hc Hp. now rewrite Hn, Hi, Hc, Hp.
Qed.

Lemma RunContainer_options_witness :
  RunContainer (NewComposeRunnerDefault ascii_only (logging (printing "")))
    tt (dockerOpts (managed (found "exited" None)))
  = RunContainer (NewComposeRunnerDefault ascii_only (logging (printing "")))
      tt {| ContainerName := ""; ImageName := ""; ImageTarPath := ""; ConfigPath := "";
            DataPath := ""; ComposeFile := ""; ComposeService := "ditto-edge-server" |}.
Proof.
  exact (proj1 (RunContainer_options ascii_only (logging (printing "")) tt
                  (dockerOpts (managed (found "exited" None)))
                  {| ContainerName := ""; ImageName := ""; ImageTarPath := "";
                     ConfigPath := ""; DataPath := ""; ComposeFile := "";
                     ComposeService := "ditto-edge-server" |})
               eq_refl eq_refl).
Defined.

(** ** [Status] and [NewService] *)



(** X18. When [http.NewRequestWithContext] refuses the probe request,
    [Status] does not return: it has dropped the error and goes on to set a
    header on the nil request. The runner has been asked for the container
    status by then; the client is never called. [execWithArgs] returns the
    error in the same situation. *)
Theorem Status_panics_on_refused_request {W Ctx : Type} (L : Lib Ctx)
    (status_line : http.Response -> string) (s : service W Ctx) (ctx : Ctx) (e : error)
    (w : W) (calls : list Call) :
  NewRequest_error L ctx (execute_url s) = Some e ->
  fst (Status L status_line s ctx w) = Panics
  /\ fst (Status L status_line (recording_service s) ctx (w, calls)) = Panics
  /\ snd (snd (Status L status_line (recording_service s) ctx (w, calls)))
     = app calls match docker s with
                 | Some _ => [CallContainerStatus (ContainerName (dockerOpts s))]
                 | None => []
                 end
  /\ forall (query : string) (args : gomap any),
       execWithArgs L s ctx query args w = (Err e, w).
Proof.
  intros Hreq. unfold Status, NewRequestWithContext.
  change (strings.TrimRight (BaseURL (recording_service s)) "/" ++ "/"
          ++ AppID (recording_service s) ++ "/execute") with (execute_url s).
  change (strings.TrimRight (BaseURL s) "/" ++ "/" ++ AppID s ++ "/execute")
    with (execute_url s).
  rewrite Hreq.
  cbn [docker dockerOpts recording_service]. unfold bind, ret.
  split; [|split; [|split]].
  - destruct (docker s) as [d|]; [|reflexivity].
    now destruct (ContainerStatus d ctx _ w) as [[st [e0|]] w1].
  - destruct (docker s) as [d|]; cbn [fmap option_fmap option_map]; [|reflexivity].
    cbn [ContainerStatus recording_runner]. unfold recording. cbn [fst snd].
    now destruct (ContainerStatus d ctx _ w) as [[st [e0|]] w1].
  - destruct (docker s) as [d|]; cbn [fmap option_fmap option_map];
      [|cbn; now rewrite app_nil_r].
    cbn [ContainerStatus recording_runner]. unfold recording. cbn [fst snd].
    now destruct (ContainerStatus d ctx _ w) as [[st [e0|]] w1].
  - intros query args. unfold execWithArgs, NewRequestWithContext. now rewrite Hreq.
Qed.

Lemma Status_panics_on_refused_request_witness :
  fst (Status (refusing_lib (errors.New "net/http: nil Context")) (fun _ => "200 OK")
         (local_service {| http.StatusCode := 200; http.BodyBytes := "[]" |}) tt tt)
  = Panics.
Proof.
  exact (proj1 (Status_panics_on_refused_request
                  (refusing_lib (errors.New "net/http: nil Context")) (fun _ => "200 OK")
                  (local_service {| http.StatusCode := 200; http.BodyBytes := "[]" |})
                  tt (errors.New "net/http: nil Context") tt [] eq_refl)).
Defined.

(** X19. A service fresh from [NewService] manages no container: [InitDB]
    and [Close] return nil, make no call and change nothing. After
    [WithDocker] with a runner, [Close] stops the container named in the
    options given to [WithDocker]; after [WithDocker] with the nil runner
    management is off again. [WithDocker] leaves the base URL, the
    application id and the client as they were. *)
Theorem NewService_unmanaged {W Ctx : Type} (client : http.Client W) (baseURL appID : string)
    (ctx : Ctx) (w : W) (calls : list Call) :
  InitDB (recording_service (NewService client baseURL appID)) ctx (w, calls)
  = ((None, recording_service (NewService client baseURL appID)), (w, calls))
  /\ Close (recording_service (NewService (Ctx := Ctx) client baseURL appID)) ctx (w, calls)
     = (None, (w, calls))
  /\ forall (d : DockerRunner W Ctx) (opts opts' : DockerOptions),
       snd (snd (Close (recording_service
                          (WithDocker (NewService client baseURL appID) (Some d) opts))
                   ctx (w, calls)))
       = app calls [CallStopContainer (ContainerName opts)]
       /\ Close (recording_service
                   (WithDocker (WithDocker (NewService client baseURL appID) (Some d) opts)
                      None opts'))
            ctx (w, calls)
          = (None, (w, calls))
       /\ execute_url (WithDocker (NewService client baseURL appID) (Some d) opts)
          = execute_url (NewService (Ctx := Ctx) client baseURL appID).
Proof.
  split; [reflexivity|]. split; [reflexivity|]. intros d opts opts'.
  split; [|split; reflexivity].
  unfold Close. cbn [docker dockerOpts recording_service WithDocker NewService].
  cbn [fmap option_fmap option_map StopContainer recording_runner].
  unfold bind, recording, ret. cbn [fst snd].
  now destruct (StopContainer d ctx (ContainerName opts) w).
Qed.

(** ** More on the builders and their callers *)



(** X21. [GetRecords] is [Search] without filters, be the filter map nil
    or empty; and [Search] sends its filters inside the statement: an
    accepted request carries the statement of [BuildSelect] and no
    [query_args]. *)
Theorem Search_request {W Ctx : Type} (L : Lib Ctx) (s : service W Ctx) (ctx : Ctx)
    (collection : string) (filters : gomap string) (ord : list (string * string))
    (limit : Z) (sortBy sortOrder : string) (w : W) (calls : list Call) :
  range_of filters ord ->
  (len filters = 0 ->
   Search L s ctx collection filters ord limit sortBy sortOrder w
   = GetRecords L s ctx collection limit sortBy sortOrder w)
  /\ (NewRequest_error L ctx (execute_url s) = None ->
      exists req,
        snd (snd (Search L (recording_service s) ctx collection filters ord limit
                    sortBy sortOrder (w, calls)))
        = app calls [CallDo req]
        /\ query_of req
           = Some (Str (BuildSelect (unicode L) collection filters ord limit sortBy sortOrder))
        /\ query_args_of req = None).
Proof.
  intros Hr. split.
  - intros Hlen. unfold Search, GetRecords.
    rewrite (BuildSelect_eq (unicode L) collection filters ord limit sortBy sortOrder Hr).
    rewrite (BuildSelect_eq (unicode L) collection None [] limit sortBy sortOrder
               range_of_None).
    apply (range_of_nil filters ord Hr) in Hlen. now subst ord.
  - intros Hreq. unfold Search.
    rewrite (execWithArgs_recorded L s ctx _ None w calls Hreq).
    eexists. split; [reflexivity|].
    unfold query_of, query_args_of, post, execWithArgs_body. cbn [http.Body].
    split; [apply lookup_singleton_eq | now apply lookup_singleton_ne].
Qed.

Lemma Search_request_witness :
  Search plain_lib (local_service {| http.StatusCode := 200; http.BodyBytes := "[]" |})
    tt "users" (Some ∅) [] 10 "_id" "DESC" tt
  = GetRecords plain_lib
      (local_service {| http.StatusCode := 200; http.BodyBytes := "[]" |})
      tt "users" 10 "_id" "DESC" tt.
Proof.
  refine (proj1 (Search_request plain_lib
                   (local_service {| http.StatusCode := 200; http.BodyBytes := "[]" |})
                   tt "users" (Some ∅) [] 10 "_id" "DESC" tt [] _) _).
  - unfold range_of, entries. now rewrite map_to_list_empty.
  - reflexivity.
Defined.

(** X22. [UpdateRecord] on a collection, an id and a patch that are not
    empty posts one request, when it is accepted: its [query_args] bind
    [id] to the id and [p_<k>] to the value of each patch field [k], so
    that the values of the patch travel as parameters. *)
Theorem UpdateRecord_request {W Ctx : Type} (L : Lib Ctx) (s : service W Ctx) (ctx : Ctx)
    (collection id : string) (patch : gomap any) (ord : list (string * any)) (w : W)
    (calls : list Call) :
  collection <> "" -> id <> "" -> len patch <> 0 -> range_of patch ord ->
  NewRequest_error L ctx (execute_url s) = None ->
  exists (req : http.Request) (q : string) (args : gmap string any),
    snd (snd (UpdateRecord L (recording_service s) ctx collection id patch ord (w, calls)))
    = app calls [CallDo req]
    /\ BuildUpdate collection id patch ord = Ok (q, Some args)
    /\ query_of req = Some (Str q)
    /\ query_args_of req = Some (Object (Some args))
    /\ args !! "id" = Some (Str id)
    /\ (forall k v, lookup_map patch k = Some v -> args !! ("p_" ++ k) = Some v).
Proof.
  intros Hc Hi Hp Hr Hreq. unfold UpdateRecord, BuildUpdate.
  rewrite (eqb_empty_false _ Hc), (eqb_empty_false _ Hi). cbn [orb].
  apply Z.eqb_neq in Hp. rewrite Hp. rewrite BuildUpdate_fields. cbn [app].
  rewrite (execWithArgs_recorded L s ctx _ _ w calls Hreq).
  eexists. eexists. eexists. split; [reflexivity|]. split; [reflexivity|].
  destruct (request_fields s
              ("UPDATE " ++ escapeIdent collection ++ " SET "
               ++ strings.Join (List.map set_clause ord) ", " ++ " WHERE _id == :id")
              (fold_left (fun a kv => <[ param_name (fst kv) := snd kv ]> a) ord
                 {[ "id" := Str id ]})) as [Hq Ha].
  split; [exact Hq|]. split; [exact Ha|]. split.
  - rewrite bound_other; [apply lookup_singleton_eq|].
    intros kv _. unfold param_name. simpl. discriminate.
  - intros k v Hk. apply (bound_field ord _ k v).
    + exact (range_of_NoDup _ _ Hr).
    + destruct patch as [g|]; [|discriminate]. now apply (range_of_lookup g ord k v Hr).
Qed.

Lemma UpdateRecord_request_witness :
  exists (req : http.Request) (args : gmap string any),
    snd (snd (UpdateRecord plain_lib
                (recording_service
                   (local_service {| http.StatusCode := 200; http.BodyBytes := "[]" |}))
                tt "users" "u1" (Some {[ "age" := Number 31 ]}) [("age", Number 31)]
                (tt, [])))
    = [CallDo req]
    /\ query_args_of req = Some (Object (Some args))
    /\ args !! "id" = Some (Str "u1").
Proof.
  destruct (UpdateRecord_request plain_lib
              (local_service {| http.StatusCode := 200; http.BodyBytes := "[]" |})
              tt "users" "u1" (Some {[ "age" := Number 31 ]}) [("age", Number 31)] tt [])
    as (req & q & args & E & _ & _ & Ha & Hid & _).
  - discriminate.
  - discriminate.
  - simpl. rewrite map_size_singleton. discriminate.
  - apply range_of_singleton.
  - reflexivity.
  - exists req, args. split; [exact E|]. split; [exact Ha | exact Hid].
Defined.
